(** * BookingServices: booking lifecycle and availability checking

    A shallow embedding of the booking core of the BookingServices
    backend: the row types of [models/], the queries and writes of
    [crud/booking_crud.py] (with the two look-ups of [crud/user_crud.py]
    and [crud/service_crud.py] that booking creation needs) and the
    booking endpoints of [main.py].

    Conventions of the embedding.
    - A [datetime] is an integer instant ([Z]); [<] and [>] on datetimes
      are the order of [Z].
    - A table is the list of its rows in insertion order.  A SQLAlchemy
      query is the list of rows it selects: [.filter] is [List.filter],
      [.count()] is [length], [.first()] is the head.
    - The database session [db] is passed explicitly; a function that
      commits returns the new session next to its value.
    - A raised exception is a [Raise] result.
    - The server-side time stamps [created_at]/[updated_at] and the
      [Float] column [Service.price] are not part of the embedding: no
      rule of the booking core reads them. *)

From Stdlib Require Import ZArith List String Bool Lia DecimalString.
From Stdlib Require Import Sorted Permutation.
Import ListNotations.

Open Scope string_scope.
Open Scope Z_scope.

(** ** Python values *)

(** [str(n)] for an [int]. *)
Definition str_of_int (n : Z) : string := NilZero.string_of_int (Z.to_int n).

(** Truth value of an [Optional[int]]: [None] and [0] are falsy. *)
Definition truthy (o : option Z) : bool :=
  match o with
  | None => false
  | Some n => negb (n =? 0)
  end.

(** [x in xs] for a list of [str]. *)
Definition str_in (x : string) (xs : list string) : bool :=
  existsb (String.eqb x) xs.

(** [Query.first()]. *)
Definition first {A : Type} (q : list A) : option A :=
  match q with
  | [] => None
  | x :: _ => Some x
  end.

(** Truth value of an [Optional[str]]: [None] and the empty string are
    falsy. *)
Definition truthy_str (o : option string) : bool :=
  match o with
  | None => false
  | Some s => negb (s =? EmptyString)%string
  end.

(** [Query.offset(n)].  A negative offset skips nothing, as in SQLite,
    the engine the program configures. *)
Definition offset {A : Type} (n : Z) (q : list A) : list A :=
  skipn (Z.to_nat n) q.

(** [Query.limit(n)].  A negative limit does not bound the result, as in
    SQLite. *)
Definition limit {A : Type} (n : Z) (q : list A) : list A :=
  if n <? 0 then q else firstn (Z.to_nat n) q.

(** [Query.order_by(key.desc())]: rows by decreasing key; rows with equal
    keys keep their table order. *)
Fixpoint insert_desc {A : Type} (key : A -> Z) (x : A) (q : list A) : list A :=
  match q with
  | [] => [x]
  | y :: q' => if key y <=? key x then x :: y :: q' else y :: insert_desc key x q'
  end.

Definition order_by_desc {A : Type} (key : A -> Z) (q : list A) : list A :=
  fold_right (insert_desc key) [] q.

(** [needle in s] for two [str]. *)
Fixpoint contains (needle s : string) : bool :=
  String.prefix needle s
  || match s with
     | EmptyString => false
     | String _ s' => contains needle s'
     end.

(** ** Exceptions *)

Inductive exn : Type :=
| HTTPException (status_code : Z) (detail : string)
| AttributeError (msg : string)
| IntegrityError (msg : string).

Inductive result (A : Type) : Type :=
| Return (a : A)
| Raise (e : exn).

Arguments Return {A} a.
Arguments Raise {A} e.

Definition bind {A B : Type} (r : result A) (k : A -> result B) : result B :=
  match r with
  | Return a => k a
  | Raise e => Raise e
  end.

Notation "x <- r ;; k" := (bind r (fun x => k))
  (at level 61, r at next level, right associativity).

(** [str(e)] for the exceptions above. *)
Definition str_of_exn (e : exn) : string :=
  match e with
  | HTTPException _ detail => detail
  | AttributeError msg => msg
  | IntegrityError msg => msg
  end.

(** Attribute look-up [s.name] on a [str] object [s].  The only names
    looked up on a [str] in this program are [HTTP_...] names, which
    [str] does not have. *)
Definition str_getattr (s : string) (name : string) : result Z :=
  Raise (AttributeError ("'str' object has no attribute '" ++ name ++ "'")).

(** [fastapi.status]. *)
Module status.
Definition HTTP_200_OK : Z := 200.
Definition HTTP_201_CREATED : Z := 201.
Definition HTTP_204_NO_CONTENT : Z := 204.
Definition HTTP_400_BAD_REQUEST : Z := 400.
Definition HTTP_404_NOT_FOUND : Z := 404.
End status.

(** ** models/ *)

Module user.
Record User : Type := mkUser {
  id : Z;
  email : string;
  username : string;
  full_name : string;
  phone : option string;
  is_active : bool
}.
End user.

Module service.
Record Service : Type := mkService {
  id : Z;
  name : string;
  description : option string;
  duration_minutes : Z;
  category : string;
  is_available : bool
}.
End service.

Module booking.

Module BookingStatus.
Definition PENDING : string := "pending".
Definition CONFIRMED : string := "confirmed".
Definition CANCELLED : string := "cancelled".
Definition COMPLETED : string := "completed".
End BookingStatus.

(** The [bookings] table row. *)
Record Booking : Type := mkBooking {
  id : Z;
  user_id : Z;
  service_id : Z;
  booking_date : Z;
  start_time : Z;
  end_time : Z;
  status : string;
  notes : option string;
  total_price : Z
}.

(** [BookingBase]/[BookingCreate]: the schema has no [status] field.
    The prefix [c_] (and [u_] below) keeps the schema's field names apart
    from the columns of the row. *)
Record BookingCreate : Type := mkBookingCreate {
  c_user_id : Z;
  c_service_id : Z;
  c_booking_date : Z;
  c_start_time : Z;
  c_end_time : Z;
  c_notes : option string;
  c_total_price : Z
}.

(** [BookingUpdate].  Every field is [Optional] with default [None];
    [dict(exclude_unset=True)] keeps the fields the request supplied,
    so a field has three states: not supplied ([None]), supplied as
    [null] ([Some None]), supplied with a value ([Some (Some v)]). *)
Record BookingUpdate : Type := mkBookingUpdate {
  u_booking_date : option (option Z);
  u_start_time : option (option Z);
  u_end_time : option (option Z);
  u_notes : option (option string);
  u_total_price : option (option Z)
}.

End booking.

(** ** The database session: the three tables *)

Record Session : Type := mkSession {
  users : list user.User;
  services : list service.Service;
  bookings : list booking.Booking
}.

Definition set_bookings (db : Session) (rows : list booking.Booking) : Session :=
  {| users := users db; services := services db; bookings := rows |}.

(** The id an integer primary key receives on insert, when the row
    supplies none (no row of this program does): one more than the
    largest id in use, counting from [1]. *)
Definition next_id (ids : list Z) : Z :=
  1 + fold_right Z.max 0 ids.

(** ** crud/user_crud.py, crud/service_crud.py *)

Module user_crud.
Definition get_user (db : Session) (user_id : Z) : option user.User :=
  first (filter (fun u => user.id u =? user_id) (users db)).

Definition get_users (db : Session) (skip limit_ : Z) : list user.User :=
  limit limit_ (offset skip (users db)).

(** Equality of [users] rows, for [DISTINCT]. *)
Definition User_eq_dec (u v : user.User) : {u = v} + {u <> v}.
Proof.
  decide equality; try apply Bool.bool_dec; try apply string_dec;
    try apply Z.eq_dec.
  decide equality. apply string_dec.
Defined.

(** The dictionary [get_user_stats] returns. *)
Record UserStats : Type := mkUserStats {
  total_users : Z;
  active_users : Z;
  users_with_bookings : Z;
  inactive_users : Z
}.

(** [db.query(User).join(Booking)]: one row per pair of a user and a
    booking of that user. *)
Definition join_bookings (db : Session) : list user.User :=
  flat_map
    (fun u => map (fun _ => u)
                (filter (fun b => booking.user_id b =? user.id u) (bookings db)))
    (users db).

Definition get_user_stats (db : Session) : UserStats :=
  let total_users := Z.of_nat (List.length (users db)) in
  let active_users :=
    Z.of_nat (List.length (filter (fun u => Bool.eqb (user.is_active u) true)
                             (users db))) in
  let users_with_bookings :=
    Z.of_nat (List.length (nodup User_eq_dec (join_bookings db))) in
  {| total_users := total_users;
     active_users := active_users;
     users_with_bookings := users_with_bookings;
     inactive_users := total_users - active_users |}.
End user_crud.

Module service_crud.
Definition get_service (db : Session) (service_id : Z) : option service.Service :=
  first (filter (fun s => service.id s =? service_id) (services db)).
End service_crud.

(** ** crud/booking_crud.py *)

Module booking_crud.
Import booking.

(** [create_booking]: the row is built from the seven request fields;
    [status] is not passed, so the column default [PENDING] applies,
    and the store assigns [id] on commit. *)
Definition create_booking (db : Session) (booking : BookingCreate)
  : Booking * Session :=
  let db_booking :=
    {| id := next_id (map id (bookings db));
       user_id := c_user_id booking;
       service_id := c_service_id booking;
       booking_date := c_booking_date booking;
       start_time := c_start_time booking;
       end_time := c_end_time booking;
       status := BookingStatus.PENDING;
       notes := c_notes booking;
       total_price := c_total_price booking |} in
  (db_booking, set_bookings db (bookings db ++ [db_booking])).

Definition get_booking (db : Session) (booking_id : Z) : option Booking :=
  first (filter (fun b => id b =? booking_id) (bookings db)).

(** [UPDATE bookings SET ... WHERE id = <primary key of row>]. *)
Definition store_row (db : Session) (row : Booking) : Session :=
  set_bookings db
    (map (fun r => if id r =? id row then row else r) (bookings db)).

(** [setattr] of a supplied field on a [nullable=False] column:
    a supplied [null] makes the commit fail. *)
Definition set_required {A : Type} (column : string)
    (supplied : option (option A)) (old : A) : result A :=
  match supplied with
  | None => Return old
  | Some (Some v) => Return v
  | Some None =>
      Raise (IntegrityError ("NOT NULL constraint failed: bookings." ++ column))
  end.

(** [setattr] of a supplied field on a nullable column. *)
Definition set_nullable {A : Type}
    (supplied : option (option A)) (old : option A) : option A :=
  match supplied with
  | None => old
  | Some v => v
  end.

(** The loop over [booking.dict(exclude_unset=True).items()]. *)
Definition setattrs (db_booking : Booking) (booking : BookingUpdate)
  : result Booking :=
  d <- set_required "booking_date" (u_booking_date booking) (booking_date db_booking) ;;
  s <- set_required "start_time" (u_start_time booking) (start_time db_booking) ;;
  e <- set_required "end_time" (u_end_time booking) (end_time db_booking) ;;
  p <- set_required "total_price" (u_total_price booking) (total_price db_booking) ;;
  Return
    {| id := id db_booking;
       user_id := user_id db_booking;
       service_id := service_id db_booking;
       booking_date := d;
       start_time := s;
       end_time := e;
       status := status db_booking;
       notes := set_nullable (u_notes booking) (notes db_booking);
       total_price := p |}.

Definition update_booking (db : Session) (booking_id : Z)
    (booking : BookingUpdate) : result (option Booking) * Session :=
  match first (filter (fun b => id b =? booking_id) (bookings db)) with
  | Some db_booking =>
      match setattrs db_booking booking with
      | Return row => (Return (Some row), store_row db row)
      | Raise e => (Raise e, db)
      end
  | None => (Return None, db)
  end.

Definition set_status (db_booking : Booking) (status : string) : Booking :=
  {| id := id db_booking;
     user_id := user_id db_booking;
     service_id := service_id db_booking;
     booking_date := booking_date db_booking;
     start_time := start_time db_booking;
     end_time := end_time db_booking;
     status := status;
     notes := notes db_booking;
     total_price := total_price db_booking |}.

Definition update_booking_status (db : Session) (booking_id : Z)
    (status : string) : option Booking * Session :=
  match first (filter (fun b => id b =? booking_id) (bookings db)) with
  | Some db_booking =>
      let row := set_status db_booking status in
      (Some row, store_row db row)
  | None => (None, db)
  end.

(** [db.delete(db_booking)] is [DELETE FROM bookings WHERE id = ...]. *)
Definition delete_booking (db : Session) (booking_id : Z) : bool * Session :=
  match first (filter (fun b => id b =? booking_id) (bookings db)) with
  | Some db_booking =>
      (true,
       set_bookings db
         (filter (fun r => negb (id r =? id db_booking)) (bookings db)))
  | None => (false, db)
  end.

(** SQL [column != value]; a comparison with [NULL] selects no row. *)
Definition ne (column : Z) (value : option Z) : bool :=
  match value with
  | Some x => negb (column =? x)
  | None => false
  end.

(** The conjunction inside the first [.filter] of [check_availability]. *)
Definition conflict_filter (service_id start_time_ end_time_ : Z)
    (b : Booking) : bool :=
  (booking.service_id b =? service_id)
  && str_in (status b) [BookingStatus.CONFIRMED; BookingStatus.PENDING]
  && ((start_time b <? end_time_) && (end_time b >? start_time_)).

Definition check_availability (db : Session) (service_id : Z)
    (start_time end_time : Z) (exclude_booking_id : option Z) : bool :=
  let query := filter (conflict_filter service_id start_time end_time)
                      (bookings db) in
  let query :=
    if truthy exclude_booking_id
    then filter (fun b => ne (id b) exclude_booking_id) query
    else query in
  let conflicting_bookings := Z.of_nat (List.length query) in
  conflicting_bookings =? 0.

(** SQL [column == value]; a comparison with [NULL] selects no row. *)
Definition eq (column : Z) (value : option Z) : bool :=
  match value with
  | Some x => column =? x
  | None => false
  end.

Definition eq_str (column : string) (value : option string) : bool :=
  match value with
  | Some x => (column =? x)%string
  | None => false
  end.

Definition get_bookings (db : Session) (skip limit_ : Z)
    (user_id service_id : option Z) (status_filter : option string)
  : list Booking :=
  let query := bookings db in
  let query :=
    if truthy user_id
    then filter (fun b => eq (booking.user_id b) user_id) query
    else query in
  let query :=
    if truthy service_id
    then filter (fun b => eq (booking.service_id b) service_id) query
    else query in
  let query :=
    if truthy_str status_filter
    then filter (fun b => eq_str (status b) status_filter) query
    else query in
  limit limit_ (offset skip query).

Definition get_bookings_by_user (db : Session) (user_id skip limit_ : Z)
  : list Booking :=
  limit limit_
    (offset skip (filter (fun b => booking.user_id b =? user_id) (bookings db))).

Definition get_bookings_by_service (db : Session) (service_id skip limit_ : Z)
  : list Booking :=
  limit limit_
    (offset skip
       (filter (fun b => booking.service_id b =? service_id) (bookings db))).

Definition get_bookings_by_date_range (db : Session)
    (start_date end_date skip limit_ : Z) : list Booking :=
  limit limit_
    (offset skip
       (filter (fun b => (booking_date b >=? start_date)
                         && (booking_date b <=? end_date))
               (bookings db))).

(** The first two queries of [get_booking_stats]: the number of bookings
    and, per status in use, the number of bookings with it.  (The
    monthly trend reads the clock and the revenue figures are floats;
    they are not embedded.) *)
Definition total_bookings (db : Session) : Z :=
  Z.of_nat (List.length (bookings db)).

Definition status_stats (db : Session) : list (string * Z) :=
  map (fun st =>
         (st, Z.of_nat (List.length
                          (filter (fun b => (status b =? st)%string)
                                  (bookings db)))))
      (nodup string_dec (map status (bookings db))).

Definition get_user_booking_history (db : Session) (user_id skip limit_ : Z)
  : list Booking :=
  limit limit_
    (offset skip
       (order_by_desc booking_date
          (filter (fun b => (booking.user_id b =? user_id)
                            && str_in (status b)
                                 [BookingStatus.COMPLETED; BookingStatus.CANCELLED])
                  (bookings db)))).

End booking_crud.

(** ** main.py: the booking endpoints *)

Module main.
Import booking.

(** The body of [POST /bookings/] as the client sent it: the values of
    the fields [BookingCreate] declares, and any other keys (a
    ["status"] key, say).  Validation into [BookingCreate] keeps the
    declared fields and ignores the rest. *)
Record RequestBody : Type := mkRequestBody {
  declared : BookingCreate;
  extra : list (string * string)
}.

Definition validate (body : RequestBody) : BookingCreate := declared body.

(** The handlers of [create_booking]'s [try]: an [HTTPException] is
    re-raised, any other exception becomes a 400. *)
Definition except_create {A : Type} (r : result A * Session)
  : result A * Session :=
  match r with
  | (Return a, db) => (Return a, db)
  | (Raise (HTTPException c d), db) => (Raise (HTTPException c d), db)
  | (Raise e, db) =>
      (Raise (HTTPException status.HTTP_400_BAD_REQUEST
                ("Failed to create booking: " ++ str_of_exn e)), db)
  end.

Definition create_booking (booking : BookingCreate) (db : Session)
  : result Booking * Session :=
  except_create
    match user_crud.get_user db (c_user_id booking) with
    | None =>
        (Raise (HTTPException status.HTTP_404_NOT_FOUND
                  ("User with ID " ++ str_of_int (c_user_id booking)
                   ++ " not found")), db)
    | Some _ =>
        match service_crud.get_service db (c_service_id booking) with
        | None =>
            (Raise (HTTPException status.HTTP_404_NOT_FOUND
                      ("Service with ID " ++ str_of_int (c_service_id booking)
                       ++ " not found")), db)
        | Some _ =>
            let (db_booking, db') := booking_crud.create_booking db booking in
            (Return db_booking, db')
        end
    end.

(** [POST /bookings/] from the raw body. *)
Definition post_bookings (body : RequestBody) (db : Session)
  : result Booking * Session :=
  create_booking (validate body) db.

Definition update_booking (booking_id : Z) (booking : BookingUpdate)
    (db : Session) : result Booking * Session :=
  match booking_crud.update_booking db booking_id booking with
  | (Raise e, db') => (Raise e, db')
  | (Return None, db') =>
      (Raise (HTTPException status.HTTP_404_NOT_FOUND
                ("Booking with ID " ++ str_of_int booking_id ++ " not found")),
       db')
  | (Return (Some db_booking), db') => (Return db_booking, db')
  end.

Definition delete_booking (booking_id : Z) (db : Session)
  : result (list (string * string)) * Session :=
  let (success, db') := booking_crud.delete_booking db booking_id in
  if negb success
  then (Raise (HTTPException status.HTTP_404_NOT_FOUND
                 ("Booking with ID " ++ str_of_int booking_id ++ " not found")),
        db')
  else (Return [("message", "Booking deleted successfully")], db').

(** [update_booking_status(booking_id, status, db)].  The parameter
    [status] is a [str] and hides the module [fastapi.status] inside
    the body, so [status.HTTP_400_BAD_REQUEST] and
    [status.HTTP_404_NOT_FOUND] are attribute look-ups on that [str];
    they are evaluated before [HTTPException] is constructed. *)
Definition update_booking_status (booking_id : Z) (status : string)
    (db : Session) : result Booking * Session :=
  let valid_statuses := ["pending"; "confirmed"; "cancelled"; "completed"] in
  if negb (str_in status valid_statuses)
  then
    (status_code <- str_getattr status "HTTP_400_BAD_REQUEST" ;;
     Raise (HTTPException status_code
              "Invalid status. Must be one of: ['pending', 'confirmed', 'cancelled', 'completed']"),
     db)
  else
    match booking_crud.update_booking_status db booking_id status with
    | (None, db') =>
        (status_code <- str_getattr status "HTTP_404_NOT_FOUND" ;;
         Raise (HTTPException status_code
                  ("Booking with ID " ++ str_of_int booking_id ++ " not found")),
         db')
    | (Some db_booking, db') => (Return db_booking, db')
    end.

Definition get_bookings (skip limit_ : Z) (user_id service_id : option Z)
    (status_filter : option string) (db : Session) : result (list Booking) :=
  let bookings_ :=
    booking_crud.get_bookings db skip limit_ user_id service_id status_filter in
  match bookings_ with
  | [] =>
      Raise (HTTPException status.HTTP_404_NOT_FOUND
               "No bookings found with the specified criteria")
  | _ => Return bookings_
  end.

Definition get_booking (booking_id : Z) (db : Session) : result Booking :=
  match booking_crud.get_booking db booking_id with
  | None =>
      Raise (HTTPException status.HTTP_404_NOT_FOUND
               ("Booking with ID " ++ str_of_int booking_id ++ " not found"))
  | Some booking => Return booking
  end.

End main.

(** ** utils/log_reader.py

    The file system is the argument [file]: the lines of the log file,
    or [None] when the path does not exist.  [str.strip], [str.upper]
    and [str.lower] are parameters: nothing below depends on what they
    do to a string. *)

Module log_reader.

Definition LEVELS : list string :=
  ["DEBUG"; "INFO"; "WARN"; "ERROR"; "CRITICAL"].

Section read_logs.
Variables strip upper lower : string -> string.

(** The level filter; [None] is the early [return [], 0] for an unknown
    level. *)
Definition filter_level (level : option string) (filtered : list string)
  : option (list string) :=
  if truthy_str level then
    match level with
    | Some level =>
        let lvl := upper (strip level) in
        if negb (str_in lvl LEVELS) then None
        else
          let needle := "[" ++ lvl ++ "]" in
          Some (filter (fun ln => contains needle ln) filtered)
    | None => Some filtered
    end
  else Some filtered.

Definition filter_query (query : option string) (filtered : list string)
  : list string :=
  if truthy_str query then
    match query with
    | Some query =>
        let q := lower query in
        filter (fun ln => contains q (lower ln)) filtered
    | None => filtered
    end
  else filtered.

Definition read_logs (file : option (list string)) (level query : option string)
    (offset limit : Z) : list string * Z :=
  match file with
  | None => ([], 0)
  | Some all_lines =>
      match filter_level level all_lines with
      | None => ([], 0)
      | Some filtered =>
          let filtered := filter_query query filtered in
          let total := Z.of_nat (List.length filtered) in
          let offset := if offset <? 0 then 0 else offset in
          let limit := if limit <=? 0 then 100 else limit in
          (firstn (Z.to_nat limit) (skipn (Z.to_nat offset) filtered), total)
      end
  end.

End read_logs.
End log_reader.

(** ** Vocabulary of the specification *)

Import booking.

(** A booking blocks its slot while it is pending or confirmed. *)
Definition active (b : Booking) : Prop :=
  status b = BookingStatus.PENDING \/ status b = BookingStatus.CONFIRMED.

(** Half-open overlap of the booking's [[s, e)] with [[startTime, endTime)]. *)
Definition overlaps (b : Booking) (startTime endTime : Z) : Prop :=
  start_time b < endTime /\ end_time b > startTime.

(** [b] is the booking an [excludeBookingId] names. *)
Definition excluded (excludeBookingId : option Z) (b : Booking) : Prop :=
  excludeBookingId = Some (id b).

(** The primary key of the [bookings] table as the store assigns it:
    ids are pairwise distinct and start at 1. *)
Definition pk_ok (rows : list Booking) : Prop :=
  NoDup (map id rows) /\ Forall (fun i => 1 <= i) (map id rows).

(** The rows the checker counts: those that pass the conflict filter and,
    when the exclusion is applied, the [id != exclude] filter. *)
Definition counted (sid s e : Z) (ex : option Z) (b : Booking) : bool :=
  booking_crud.conflict_filter sid s e b
  && (if truthy ex then booking_crud.ne (id b) ex else true).

(** The requests that write to the [bookings] table, and the session
    each leaves behind. *)
Inductive request : Type :=
| POST_bookings (body : main.RequestBody)
| PUT_booking (booking_id : Z) (booking : BookingUpdate)
| PATCH_booking_status (booking_id : Z) (status : string)
| DELETE_booking (booking_id : Z).

Definition handle (db : Session) (r : request) : Session :=
  match r with
  | POST_bookings body => snd (main.post_bookings body db)
  | PUT_booking booking_id booking => snd (main.update_booking booking_id booking db)
  | PATCH_booking_status booking_id status =>
      snd (main.update_booking_status booking_id status db)
  | DELETE_booking booking_id => snd (main.delete_booking booking_id db)
  end.

Definition run (db : Session) (rs : list request) : Session :=
  fold_left handle rs db.

(** The value of a [nullable=False] column after a partial update: the
    old one if the field was omitted, the supplied one otherwise. *)
Definition merged {A : Type} (supplied : option (option A)) (old new : A) : Prop :=
  (supplied = None -> new = old)
  /\ (forall v, supplied = Some (Some v) -> new = v).

(** The same for the nullable column [notes], which may be set to [null]. *)
Definition merged_nullable {A : Type} (supplied : option (option A))
    (old new : option A) : Prop :=
  (supplied = None -> new = old)
  /\ (forall v, supplied = Some v -> new = v).

(** No [nullable=False] column is supplied as [null]. *)
Definition no_null (booking : BookingUpdate) : Prop :=
  u_booking_date booking <> Some None
  /\ u_start_time booking <> Some None
  /\ u_end_time booking <> Some None
  /\ u_total_price booking <> Some None.

(** ** Sample data

    Instants are minutes of one day: 540 is 9:00, 600 is 10:00. *)

Definition alice : user.User :=
  {| user.id := 1; user.email := "alice@example.com"; user.username := "alice";
     user.full_name := "Alice A"; user.phone := None; user.is_active := true |}.

Definition haircut : service.Service :=
  {| service.id := 1; service.name := "Haircut"; service.description := None;
     service.duration_minutes := 60; service.category := "Beauty";
     service.is_available := true |}.

Definition slot (i sid s e : Z) (st : string) : Booking :=
  {| id := i; user_id := 1; service_id := sid; booking_date := 0;
     start_time := s; end_time := e; status := st; notes := None;
     total_price := 50 |}.

(** The row test [get_bookings] applies: each filter whose argument is
    truthy. *)
Definition selected (user_id service_id : option Z) (status_filter : option string)
    (b : Booking) : bool :=
  (if truthy user_id then booking_crud.eq (booking.user_id b) user_id else true)
  && (if truthy service_id
      then booking_crud.eq (booking.service_id b) service_id else true)
  && (if truthy_str status_filter
      then booking_crud.eq_str (status b) status_filter else true).

(** What the caller asked for: each filter given with a non-zero id or
    a non-empty status holds of [b]. *)
Definition matches (user_id service_id : option Z) (status_filter : option string)
    (b : Booking) : Prop :=
  (forall x, user_id = Some x -> x <> 0 -> booking.user_id b = x)
  /\ (forall x, service_id = Some x -> x <> 0 -> booking.service_id b = x)
  /\ (forall x, status_filter = Some x -> x <> EmptyString -> status b = x).

(** The number of bookings with status [st]. *)
Definition count_status (db : Session) (st : string) : Z :=
  Z.of_nat (List.length (filter (fun b => (status b =? st)%string) (bookings db))).

(** The user has at least one booking in the table. *)
Definition has_booking (db : Session) (u : user.User) : bool :=
  existsb (fun b => booking.user_id b =? user.id u) (bookings db).

(** A booking is closed when it is cancelled or completed. *)
Definition closed (b : Booking) : Prop :=
  status b = BookingStatus.COMPLETED \/ status b = BookingStatus.CANCELLED.

(** Newest first by [booking_date]: no row is older than a later one. *)
Definition newest_first (rows : list Booking) : Prop :=
  StronglySorted (fun a b => booking_date b <= booking_date a) rows.

Definition db_seed : Session :=
  {| users := [alice]; services := [haircut]; bookings := [] |}.

Definition db_with (rows : list Booking) : Session :=
  {| users := [alice]; services := [haircut]; bookings := rows |}.

Definition req (uid sid s e : Z) : BookingCreate :=
  {| c_user_id := uid; c_service_id := sid; c_booking_date := 0;
     c_start_time := s; c_end_time := e; c_notes := None; c_total_price := 50 |}.

Definition only_notes (n : string) : BookingUpdate :=
  {| u_booking_date := None; u_start_time := None; u_end_time := None;
     u_notes := Some (Some n); u_total_price := None |}.

(** One day of service 1: a confirmed 9:00-10:00, a cancelled
    10:00-11:00, and a pending 9:00-10:00 on service 2. *)
Definition db_day : Session :=
  db_with [slot 1 1 540 600 "confirmed"; slot 2 1 600 660 "cancelled";
           slot 3 2 540 600 "pending"].

(** A table holding a row keyed 0, which no insert of the store produces. *)
Definition db_zero : Session :=
  db_with [slot 0 1 540 600 "pending"].

(** Two back-to-back bookings of service 1, and the update that moves
    the second onto the slot of the first. *)
Definition db_two : Session :=
  db_with [slot 1 1 540 600 "confirmed"; slot 2 1 600 660 "pending"].

Definition move_to_9 : BookingUpdate :=
  {| u_booking_date := None; u_start_time := Some (Some 540);
     u_end_time := Some (Some 600); u_notes := None; u_total_price := None |}.

Definition db_empty : Session :=
  {| users := []; services := []; bookings := [] |}.

(** A creation request that also carries a [status] key. *)
Definition body_with_status : main.RequestBody :=
  {| main.declared := req 1 1 540 600;
     main.extra := [("status", "confirmed")] |}.

(** The detail strings of the 404 responses. *)
Definition user_not_found (user_id : Z) : exn :=
  HTTPException 404 ("User with ID " ++ str_of_int user_id ++ " not found").

Definition service_not_found (service_id : Z) : exn :=
  HTTPException 404 ("Service with ID " ++ str_of_int service_id ++ " not found").

Definition booking_not_found (booking_id : Z) : exn :=
  HTTPException 404 ("Booking with ID " ++ str_of_int booking_id ++ " not found").

(** Proves [pk_ok] of a literal table. *)
Ltac pk_ok_sample :=
  split; simpl;
  [ repeat (apply NoDup_cons; [simpl; intuition lia|]); apply NoDup_nil
  | repeat (apply Forall_cons; [lia|]); apply Forall_nil ].

(** ** Lists and queries *)

Lemma first_filter_None {A : Type} (p : A -> bool) (l : list A) :
  first (filter p l) = None <-> (forall x, In x l -> p x = false).
Proof.
  induction l as [|a l IH]; simpl.
  - split; [intros _ x [] | reflexivity].
  - destruct (p a) eqn:Hpa; simpl.
    + split; [discriminate|]. intros H. rewrite (H a) in Hpa by auto. discriminate.
    + rewrite IH. split.
      * intros H x [<-|Hx]; auto.
      * intros H x Hx. apply H. auto.
Qed.

Lemma first_filter_None_nil {A : Type} (p : A -> bool) (l : list A) :
  (forall x, In x l -> p x = false) -> filter p l = [].
Proof.
  induction l as [|a l IH]; simpl; [reflexivity|].
  intros H. rewrite (H a) by auto. apply IH. intros x Hx. apply H. auto.
Qed.

Lemma first_filter_Some {A : Type} (p : A -> bool) (l : list A) (x : A) :
  first (filter p l) = Some x -> In x l /\ p x = true.
Proof.
  induction l as [|a l IH]; simpl; [discriminate|].
  destruct (p a) eqn:Hpa; simpl.
  - intros [= <-]. auto.
  - intros H. destruct (IH H). auto.
Qed.

Lemma count_zero_iff {A : Type} (p : A -> bool) (l : list A) :
  (Z.of_nat (List.length (filter p l)) =? 0) = true
  <-> (forall x, In x l -> p x = false).
Proof.
  rewrite Z.eqb_eq. induction l as [|a l IH]; simpl.
  - split; [intros _ x [] | reflexivity].
  - destruct (p a) eqn:Hpa; simpl.
    + split; [lia|]. intros H. rewrite (H a) in Hpa by auto. discriminate.
    + rewrite IH. split.
      * intros H x [<-|Hx]; auto.
      * intros H x Hx. apply H. auto.
Qed.

(** Two [.filter] calls in a row select the rows that pass both. *)
Lemma query_filter_twice (rows : list Booking) (p q : Booking -> bool) :
  filter q (filter p rows) = filter (fun b => p b && q b) rows.
Proof.
  induction rows as [|r rows IH]; cbn [filter]; [reflexivity|].
  destruct (p r); cbn [filter andb]; [destruct (q r)|]; now rewrite IH.
Qed.

(** Selecting rows keeps their ids pairwise distinct. *)
Lemma ids_distinct_filter (rows : list Booking) (keep : Booking -> bool) :
  NoDup (map id rows) -> NoDup (map id (filter keep rows)).
Proof.
  induction rows as [|r rows IH]; cbn [filter map]; [auto|].
  intros Hnd. apply NoDup_cons_iff in Hnd as [Hfresh Hnd].
  destruct (keep r); cbn [map]; [|auto].
  apply NoDup_cons; [|auto].
  intros Hin. apply Hfresh. apply in_map_iff in Hin as (x & Hx & Hsel).
  apply filter_In in Hsel as [Hsel _]. rewrite <- Hx. now apply in_map.
Qed.

(** ** The filter of the availability query *)

Lemma str_in_active (b : Booking) :
  str_in (status b) [BookingStatus.CONFIRMED; BookingStatus.PENDING] = true
  <-> active b.
Proof.
  unfold str_in, active. simpl. rewrite !orb_true_iff, !String.eqb_eq.
  intuition discriminate.
Qed.

Lemma conflict_filter_spec (sid s e : Z) (b : Booking) :
  booking_crud.conflict_filter sid s e b = true
  <-> service_id b = sid /\ active b /\ overlaps b s e.
Proof.
  unfold booking_crud.conflict_filter, overlaps.
  rewrite !andb_true_iff, str_in_active, Z.eqb_eq, Z.ltb_lt, Z.gtb_gt.
  tauto.
Qed.

Lemma conflict_filter_false (sid s e : Z) (b : Booking) :
  booking_crud.conflict_filter sid s e b = false
  <-> ~ (service_id b = sid /\ active b /\ overlaps b s e).
Proof.
  rewrite <- conflict_filter_spec.
  destruct (booking_crud.conflict_filter sid s e b); split; congruence.
Qed.

Lemma check_availability_count (db : Session) (sid s e : Z) (ex : option Z) :
  booking_crud.check_availability db sid s e ex
  = (Z.of_nat (List.length (filter (counted sid s e ex) (bookings db))) =? 0).
Proof.
  unfold booking_crud.check_availability, counted.
  destruct (truthy ex).
  - now rewrite query_filter_twice.
  - do 3 f_equal. apply filter_ext. intros b. now rewrite andb_true_r.
Qed.

Lemma check_availability_true (db : Session) (sid s e : Z) (ex : option Z) :
  booking_crud.check_availability db sid s e ex = true
  <-> (forall b, In b (bookings db) -> counted sid s e ex b = false).
Proof.
  rewrite check_availability_count. apply count_zero_iff.
Qed.

Lemma counted_false_nonzero (sid s e : Z) (ex : option Z) (b : Booking) :
  id b <> 0 ->
  counted sid s e ex b = false
  <-> (service_id b = sid -> active b -> ~ excluded ex b -> ~ overlaps b s e).
Proof.
  intros Hid. unfold counted, excluded.
  rewrite andb_false_iff, conflict_filter_false.
  destruct ex as [x|]; simpl.
  - destruct (Z.eqb_spec x 0) as [->|Hx]; simpl.
    + split; [|intros H; left; intros (? & ? & ?); apply H; auto; congruence].
      intros [H|H]; [tauto | discriminate].
    + rewrite negb_false_iff, Z.eqb_eq. split.
      * intros [H|H]; [tauto|]. intros _ _ Hne. exfalso. apply Hne. congruence.
      * intros H. destruct (Z.eq_dec (id b) x) as [Heq|Hne]; [now right|].
        left. intros (? & ? & ?). apply H; auto. congruence.
  - split.
    + intros [H|H]; [tauto | discriminate].
    + intros H. left. intros (? & ? & ?). apply H; auto. discriminate.
Qed.

(** ** The primary key of [bookings] is an invariant of every write *)

Lemma next_id_above (ids : list Z) :
  1 <= next_id ids /\ (forall i, In i ids -> i < next_id ids).
Proof.
  unfold next_id. induction ids as [|a ids [IH1 IH2]]; cbn [fold_right In].
  - split; [lia | intros i []].
  - split; [lia|]. intros i [<-|Hi]; [lia|]. specialize (IH2 i Hi). lia.
Qed.

Lemma pk_ok_nil : pk_ok [].
Proof. split; constructor. Qed.

Lemma pk_ok_create (db : Session) (booking : BookingCreate) :
  pk_ok (bookings db) ->
  pk_ok (bookings (snd (booking_crud.create_booking db booking))).
Proof.
  intros [Hnd Hpos]. unfold pk_ok, booking_crud.create_booking, set_bookings.
  cbn [snd bookings id]. rewrite map_app. cbn [map id].
  destruct (next_id_above (map id (bookings db))) as [H1 Hlt].
  split.
  - apply NoDup_app; [assumption | repeat constructor; intros [] |].
    intros i Hi [<-|[]]. specialize (Hlt _ Hi). lia.
  - apply Forall_app. split; [assumption | repeat constructor; assumption].
Qed.

Lemma store_row_ids (db : Session) (row : Booking) :
  map id (bookings (booking_crud.store_row db row)) = map id (bookings db).
Proof.
  simpl. rewrite map_map. apply map_ext. intros r.
  destruct (Z.eqb_spec (id r) (id row)); congruence.
Qed.

Lemma pk_ok_store_row (db : Session) (row : Booking) :
  pk_ok (bookings db) -> pk_ok (bookings (booking_crud.store_row db row)).
Proof. unfold pk_ok. now rewrite store_row_ids. Qed.

Lemma pk_ok_filter (p : Booking -> bool) (rows : list Booking) :
  pk_ok rows -> pk_ok (filter p rows).
Proof.
  intros [Hnd Hpos]. split.
  - now apply ids_distinct_filter.
  - rewrite Forall_forall in *. intros i Hi.
    apply in_map_iff in Hi as (b & <- & Hb). apply filter_In in Hb as [Hb _].
    apply Hpos. now apply in_map.
Qed.

Lemma pk_ok_handle (db : Session) (r : request) :
  pk_ok (bookings db) -> pk_ok (bookings (handle db r)).
Proof.
  intros Hok. destruct r as [body|bid upd|bid st|bid]; cbn [handle].
  - unfold main.post_bookings, main.create_booking.
    destruct (user_crud.get_user db _); [|assumption].
    destruct (service_crud.get_service db _); [|assumption].
    now apply pk_ok_create.
  - unfold main.update_booking, booking_crud.update_booking.
    destruct (first _) as [b|]; [|assumption].
    destruct (booking_crud.setattrs b upd); [|assumption].
    now apply pk_ok_store_row.
  - unfold main.update_booking_status, booking_crud.update_booking_status.
    destruct (negb _); [assumption|].
    destruct (first _) as [b|]; [|assumption].
    now apply pk_ok_store_row.
  - unfold main.delete_booking, booking_crud.delete_booking.
    destruct (first _) as [b|]; [|assumption].
    now apply pk_ok_filter.
Qed.

(** Every session reached from one with a well-formed [bookings] key (an
    empty table, say) has a well-formed key. *)
Lemma pk_ok_run (rs : list request) (db : Session) :
  pk_ok (bookings db) -> pk_ok (bookings (run db rs)).
Proof.
  unfold run. revert db.
  induction rs as [|r rs IH]; intros db Hok; simpl; [assumption|].
  apply IH. now apply pk_ok_handle.
Qed.

Lemma pk_ok_reachable (us : list user.User) (ss : list service.Service)
    (rs : list request) :
  pk_ok (bookings (run {| users := us; services := ss; bookings := [] |} rs)).
Proof. apply pk_ok_run. apply pk_ok_nil. Qed.

Lemma pk_ok_nonzero (rows : list Booking) (b : Booking) :
  pk_ok rows -> In b rows -> id b <> 0.
Proof.
  intros [_ Hpos] Hb. rewrite Forall_forall in Hpos.
  specialize (Hpos (id b) (in_map id _ _ Hb)). lia.
Qed.

(** ** The Availability Checker *)

(** A row the checker does not count can be dropped from the table
    without changing the answer. *)
Lemma check_availability_skip (db : Session) (rows1 rows2 : list Booking)
    (x : Booking) (sid s e : Z) (ex : option Z) :
  bookings db = (rows1 ++ x :: rows2)%list ->
  counted sid s e ex x = false ->
  booking_crud.check_availability db sid s e ex
  = booking_crud.check_availability (set_bookings db (rows1 ++ rows2)%list) sid s e ex.
Proof.
  intros Hrows Hx. rewrite !check_availability_count, Hrows.
  cbn [bookings set_bookings]. rewrite !filter_app. cbn [filter].
  now rewrite Hx.
Qed.

Lemma counted_inactive (sid s e : Z) (ex : option Z) (b : Booking) :
  ~ active b -> counted sid s e ex b = false.
Proof.
  intros Hb. unfold counted. apply andb_false_iff. left.
  apply conflict_filter_false. tauto.
Qed.

Lemma counted_disjoint (sid s e : Z) (ex : option Z) (b : Booking) :
  ~ overlaps b s e -> counted sid s e ex b = false.
Proof.
  intros Hb. unfold counted. apply andb_false_iff. left.
  apply conflict_filter_false. tauto.
Qed.

Lemma closed_not_active (b : Booking) :
  status b = BookingStatus.CANCELLED \/ status b = BookingStatus.COMPLETED ->
  ~ active b.
Proof. unfold active. intros [H|H] [H'|H']; rewrite H in H'; discriminate. Qed.

Lemma check_availability_iff
    (db : Session) (sid s e : Z) (ex : option Z) :
  pk_ok (bookings db) ->
  booking_crud.check_availability db sid s e ex = true
  <-> (forall b, In b (bookings db) ->
         service_id b = sid -> active b -> ~ excluded ex b -> ~ overlaps b s e).
Proof.
  intros Hok. rewrite check_availability_true. split; intros H b Hb.
  - apply counted_false_nonzero; eauto using pk_ok_nonzero.
  - apply counted_false_nonzero; eauto using pk_ok_nonzero.
Qed.

(** C1.  On a [bookings] table keyed as the store keys it, the checker
    answers [true] exactly when no pending or confirmed booking of the
    service, other than the excluded one, overlaps the proposed
    interval.  In particular it answers [true] when the service has no
    booking, and a cancelled or completed booking never changes the
    answer: the table without it gets the same one. *)
Theorem C1_check_availability_iff_no_conflict
    (db : Session) (sid startTime endTime : Z) (excludeBookingId : option Z) :
  pk_ok (bookings db) ->
  (booking_crud.check_availability db sid startTime endTime excludeBookingId = true
   <-> (forall b, In b (bookings db) ->
          service_id b = sid -> active b -> ~ excluded excludeBookingId b ->
          ~ overlaps b startTime endTime))
  /\ ((forall b, In b (bookings db) -> service_id b <> sid) ->
      booking_crud.check_availability db sid startTime endTime excludeBookingId = true)
  /\ (forall rows1 rows2 x,
        bookings db = (rows1 ++ x :: rows2)%list ->
        status x = BookingStatus.CANCELLED \/ status x = BookingStatus.COMPLETED ->
        booking_crud.check_availability db sid startTime endTime excludeBookingId
        = booking_crud.check_availability (set_bookings db (rows1 ++ rows2)%list)
            sid startTime endTime excludeBookingId).
Proof.
  intros Hok. pose proof (check_availability_iff db sid startTime endTime
    excludeBookingId Hok) as Hiff.
  split; [exact Hiff|]. split.
  - intros Hnone. apply Hiff. intros b Hb Hsid. now destruct (Hnone b Hb).
  - intros rows1 rows2 x Hrows Hx.
    apply (check_availability_skip db rows1 rows2 x); [assumption|].
    apply counted_inactive. now apply closed_not_active.
Qed.

(** C2.  A booking whose end is the proposed start, or whose start is the
    proposed end, is never a conflict: the table without it gets the
    same answer.  So a service that holds only a pending or confirmed
    booking [[a, b)] is available for [[b, c)]. *)
Theorem C2_touching_intervals_do_not_conflict
    (db : Session) (rows1 rows2 : list Booking) (x : Booking)
    (startTime endTime : Z) (excludeBookingId : option Z) :
  bookings db = (rows1 ++ x :: rows2)%list ->
  end_time x = startTime \/ start_time x = endTime ->
  booking_crud.check_availability db (service_id x) startTime endTime excludeBookingId
  = booking_crud.check_availability (set_bookings db (rows1 ++ rows2)%list)
      (service_id x) startTime endTime excludeBookingId
  /\ ((forall b, In b (rows1 ++ rows2)%list -> service_id b <> service_id x) ->
      booking_crud.check_availability db (service_id x) startTime endTime
        excludeBookingId = true).
Proof.
  intros Hrows Htouch.
  assert (Hskip :
    booking_crud.check_availability db (service_id x) startTime endTime excludeBookingId
    = booking_crud.check_availability (set_bookings db (rows1 ++ rows2)%list)
        (service_id x) startTime endTime excludeBookingId).
  { apply (check_availability_skip db rows1 rows2 x); [assumption|].
    apply counted_disjoint. unfold overlaps. lia. }
  split; [exact Hskip|].
  intros Hothers. rewrite Hskip. apply check_availability_true.
  cbn [bookings set_bookings]. intros b Hb.
  unfold counted. apply andb_false_iff. left. apply conflict_filter_false.
  intros (Hsid & _). now apply (Hothers b Hb).
Qed.

(** C3.  Re-checking a stored booking [X] on its own service and interval
    with [excludeBookingId] set to its id answers [true], when no other
    pending or confirmed booking of the service overlaps the interval. *)
Theorem C3_excluding_self
    (db : Session) (X : Booking) :
  pk_ok (bookings db) ->
  In X (bookings db) ->
  active X ->
  (forall Y, In Y (bookings db) -> Y <> X ->
     service_id Y = service_id X -> active Y ->
     ~ overlaps Y (start_time X) (end_time X)) ->
  booking_crud.check_availability db (service_id X) (start_time X) (end_time X)
    (Some (id X)) = true.
Proof.
  intros Hok HX _ Hothers.
  apply (check_availability_iff db _ _ _ _ Hok).
  intros Y HY Hsid Hact Hnex. apply Hothers; auto.
  intros ->. apply Hnex. reflexivity.
Qed.

Lemma C1_check_availability_iff_no_conflict_witness :
  pk_ok (bookings db_day)
  /\ (booking_crud.check_availability db_day 1 570 630 None = true
      <-> (forall b, In b (bookings db_day) ->
             service_id b = 1 -> active b -> ~ excluded None b ->
             ~ overlaps b 570 630)).
Proof.
  assert (Hok : pk_ok (bookings db_day)) by pk_ok_sample.
  split; [exact Hok|].
  exact (proj1 (C1_check_availability_iff_no_conflict db_day 1 570 630 None Hok)).
Defined.

Lemma C2_touching_intervals_do_not_conflict_witness :
  bookings (db_with [slot 1 1 600 660 "confirmed"])
  = ([] ++ slot 1 1 600 660 "confirmed" :: [])%list
  /\ (end_time (slot 1 1 600 660 "confirmed") = 660
      \/ start_time (slot 1 1 600 660 "confirmed") = 720)
  /\ booking_crud.check_availability (db_with [slot 1 1 600 660 "confirmed"])
       1 660 720 None = true.
Proof.
  split; [reflexivity|]. split; [left; reflexivity|].
  refine (proj2 (C2_touching_intervals_do_not_conflict
                   (db_with [slot 1 1 600 660 "confirmed"]) [] []
                   (slot 1 1 600 660 "confirmed") 660 720 None
                   eq_refl (or_introl eq_refl)) _).
  intros b [].
Defined.

Lemma C3_excluding_self_witness :
  pk_ok (bookings db_day)
  /\ In (slot 1 1 540 600 "confirmed") (bookings db_day)
  /\ active (slot 1 1 540 600 "confirmed")
  /\ booking_crud.check_availability db_day 1 540 600 (Some 1) = true.
Proof.
  assert (Hok : pk_ok (bookings db_day)) by pk_ok_sample.
  assert (Hin : In (slot 1 1 540 600 "confirmed") (bookings db_day))
    by (left; reflexivity).
  assert (Hact : active (slot 1 1 540 600 "confirmed")) by (right; reflexivity).
  split; [exact Hok|]. split; [exact Hin|]. split; [exact Hact|].
  apply (C3_excluding_self db_day (slot 1 1 540 600 "confirmed") Hok Hin Hact).
  intros Y [<-|[<-|[<-|[]]]] Hne Hsid [Hst|Hst];
    solve [ now elim Hne | discriminate Hsid | discriminate Hst ].
Defined.

(** C10.  The checker tests [exclude_booking_id] for truth, not for
    presence: with [exclude_booking_id = 0] it answers as with no
    exclusion at all, and a conflicting booking whose id is 0 is counted
    whatever [exclude_booking_id] is. *)
Theorem C10_exclude_zero_is_no_exclusion :
  (forall (db : Session) (sid startTime endTime : Z),
     booking_crud.check_availability db sid startTime endTime (Some 0)
     = booking_crud.check_availability db sid startTime endTime None)
  /\ (forall (db : Session) (sid startTime endTime : Z)
        (excludeBookingId : option Z) (b : Booking),
        In b (bookings db) -> id b = 0 ->
        service_id b = sid -> active b -> overlaps b startTime endTime ->
        booking_crud.check_availability db sid startTime endTime excludeBookingId
        = false).
Proof.
  split.
  - reflexivity.
  - intros db sid s e ex b Hb Hid Hsid Hact Hov.
    destruct (booking_crud.check_availability db sid s e ex) eqn:Hc; [|reflexivity].
    rewrite check_availability_true in Hc. specialize (Hc b Hb).
    unfold counted in Hc. apply andb_false_iff in Hc as [Hc|Hc].
    + apply conflict_filter_false in Hc. tauto.
    + destruct ex as [x|]; simpl in Hc; [|discriminate].
      destruct (Z.eqb_spec x 0) as [->|Hx]; simpl in Hc; [discriminate|].
      rewrite Hid in Hc. destruct (Z.eqb_spec 0 x); [congruence | discriminate].
Qed.

Lemma C10_exclude_zero_is_no_exclusion_witness :
  In (slot 0 1 540 600 "pending") (bookings db_zero)
  /\ booking_crud.check_availability db_zero 1 540 600 (Some 0) = false.
Proof.
  split; [left; reflexivity|].
  apply (proj2 C10_exclude_zero_is_no_exclusion db_zero 1 540 600 (Some 0)
           (slot 0 1 540 600 "pending")).
  - left; reflexivity.
  - reflexivity.
  - reflexivity.
  - left; reflexivity.
  - unfold overlaps; simpl; lia.
Defined.

(** ** Booking creation *)

Lemma get_booking_fresh (db : Session) (booking : BookingCreate) :
  let (b, db') := booking_crud.create_booking db booking in
  booking_crud.get_booking db' (id b) = Some b
  /\ (forall k, k <> id b ->
        booking_crud.get_booking db' k = booking_crud.get_booking db k).
Proof.
  unfold booking_crud.create_booking, booking_crud.get_booking.
  cbn [bookings set_bookings id].
  destruct (next_id_above (map id (bookings db))) as [_ Hlt].
  set (n := next_id (map id (bookings db))) in *.
  split.
  - rewrite filter_app.
    replace (filter (fun b => id b =? n) (bookings db)) with (@nil Booking).
    + cbn [filter app id]. now rewrite Z.eqb_refl.
    + symmetry. apply first_filter_None_nil.
      intros x Hx. apply Z.eqb_neq.
      specialize (Hlt (id x) (in_map id _ _ Hx)). lia.
  - intros k Hk. rewrite filter_app. cbn [filter id].
    destruct (Z.eqb_spec n k); [congruence|]. now rewrite app_nil_r.
Qed.

(** What [main.create_booking] does in each of its three cases. *)
Lemma create_booking_no_user (db : Session) (booking : BookingCreate) :
  user_crud.get_user db (c_user_id booking) = None ->
  main.create_booking booking db = (Raise (user_not_found (c_user_id booking)), db).
Proof. intros H. unfold main.create_booking. now rewrite H. Qed.

Lemma create_booking_no_service (db : Session) (booking : BookingCreate)
    (u : user.User) :
  user_crud.get_user db (c_user_id booking) = Some u ->
  service_crud.get_service db (c_service_id booking) = None ->
  main.create_booking booking db
  = (Raise (service_not_found (c_service_id booking)), db).
Proof. intros Hu Hs. unfold main.create_booking. now rewrite Hu, Hs. Qed.

Lemma create_booking_ok (db : Session) (booking : BookingCreate)
    (u : user.User) (s : service.Service) :
  user_crud.get_user db (c_user_id booking) = Some u ->
  service_crud.get_service db (c_service_id booking) = Some s ->
  main.create_booking booking db
  = (Return (fst (booking_crud.create_booking db booking)),
     snd (booking_crud.create_booking db booking)).
Proof. intros Hu Hs. unfold main.create_booking. now rewrite Hu, Hs. Qed.




(** C5.  Whatever the request body carries, a [status] key included, a
    booking that [POST /bookings/] creates is returned and stored with
    status [pending]. *)
Theorem C5_created_booking_is_pending
    (body : main.RequestBody) (db db' : Session) (b : Booking) :
  main.post_bookings body db = (Return b, db') ->
  status b = BookingStatus.PENDING
  /\ booking_crud.get_booking db' (id b) = Some b.
Proof.
  unfold main.post_bookings, main.create_booking.
  destruct (user_crud.get_user db _); [|discriminate].
  destruct (service_crud.get_service db _); [|discriminate].
  pose proof (get_booking_fresh db (main.validate body)) as Hfresh.
  destruct (booking_crud.create_booking db (main.validate body)) as [b0 db0] eqn:E.
  cbn [main.except_create]. intros [= <- <-].
  split; [|apply Hfresh].
  unfold booking_crud.create_booking in E. now injection E as <- _.
Qed.

Lemma C5_created_booking_is_pending_witness :
  main.post_bookings body_with_status db_seed
  = (Return (slot 1 1 540 600 "pending"),
     db_with [slot 1 1 540 600 "pending"])
  /\ status (slot 1 1 540 600 "pending") = BookingStatus.PENDING
  /\ booking_crud.get_booking (db_with [slot 1 1 540 600 "pending"])
       (id (slot 1 1 540 600 "pending"))
     = Some (slot 1 1 540 600 "pending").
Proof.
  split; [reflexivity|].
  exact (C5_created_booking_is_pending body_with_status db_seed
           (db_with [slot 1 1 540 600 "pending"]) (slot 1 1 540 600 "pending")
           eq_refl).
Defined.

(** A freshly created booking conflicts with its own interval. *)
Lemma check_availability_after_create (db : Session) (booking : BookingCreate) :
  c_start_time booking < c_end_time booking ->
  booking_crud.check_availability (snd (booking_crud.create_booking db booking))
    (c_service_id booking) (c_start_time booking) (c_end_time booking) None
  = false.
Proof.
  intros Hlt.
  destruct (booking_crud.check_availability _ _ _ _ _) eqn:Hc; [|reflexivity].
  rewrite check_availability_true in Hc.
  specialize (Hc (fst (booking_crud.create_booking db booking))).
  unfold booking_crud.create_booking in Hc. cbn [fst snd bookings set_bookings] in Hc.
  rewrite in_app_iff in Hc. specialize (Hc (or_intror (or_introl eq_refl))).
  unfold counted in Hc. apply andb_false_iff in Hc as [Hc|Hc]; [|discriminate].
  apply conflict_filter_false in Hc. exfalso. apply Hc.
  unfold active, overlaps. cbn [service_id status start_time end_time].
  repeat split; auto; lia.
Qed.



(** ** Status update *)

Lemma get_booking_store_row (db : Session) (row : Booking) (k : Z) :
  booking_crud.get_booking (booking_crud.store_row db row) k
  = match booking_crud.get_booking db k with
    | Some r => Some (if k =? id row then row else r)
    | None => None
    end.
Proof.
  unfold booking_crud.get_booking, booking_crud.store_row.
  cbn [bookings set_bookings].
  induction (bookings db) as [|r rows IH]; [reflexivity|].
  cbn [map filter].
  destruct (id r =? id row) eqn:E1.
  - apply Z.eqb_eq in E1. rewrite E1.
    destruct (id row =? k) eqn:E2; cbn [first]; [|exact IH].
    apply Z.eqb_eq in E2. subst k. now rewrite Z.eqb_refl.
  - destruct (id r =? k) eqn:E2; cbn [first]; [|exact IH].
    apply Z.eqb_eq in E2. subst k. now rewrite E1.
Qed.

Lemma get_booking_id (db : Session) (k : Z) (b : Booking) :
  booking_crud.get_booking db k = Some b -> In b (bookings db) /\ id b = k.
Proof.
  intros H. apply first_filter_Some in H as [Hin Hid].
  split; [assumption | now apply Z.eqb_eq].
Qed.

(** The valid statuses are accepted from any prior status and written
    verbatim; the rest of the row and every other booking stay. *)
Lemma update_booking_status_ok (db : Session) (booking_id : Z) (st : string)
    (b : Booking) :
  str_in st ["pending"; "confirmed"; "cancelled"; "completed"] = true ->
  booking_crud.get_booking db booking_id = Some b ->
  exists db',
    main.update_booking_status booking_id st db
    = (Return (booking_crud.set_status b st), db')
    /\ booking_crud.get_booking db' booking_id
       = Some (booking_crud.set_status b st)
    /\ (forall k, k <> booking_id ->
          booking_crud.get_booking db' k = booking_crud.get_booking db k).
Proof.
  intros Hvalid Hb. exists (booking_crud.store_row db (booking_crud.set_status b st)).
  destruct (get_booking_id db booking_id b Hb) as [_ Hid].
  unfold main.update_booking_status, booking_crud.update_booking_status.
  unfold booking_crud.get_booking in Hb. rewrite Hvalid, Hb. cbn [negb].
  split; [reflexivity|]. split.
  - rewrite get_booking_store_row. unfold booking_crud.get_booking. rewrite Hb.
    cbn [booking_crud.set_status id]. now rewrite Hid, Z.eqb_refl.
  - intros k Hk. rewrite get_booking_store_row.
    destruct (booking_crud.get_booking db k); [|reflexivity].
    cbn [booking_crud.set_status id].
    destruct (Z.eqb_spec k (id b)); [congruence|reflexivity].
Qed.

(** C7, on the code.  In [update_booking_status] the parameter [status]
    hides [fastapi.status], so neither failure is reported as the
    intended HTTP error: an unrecognised status such as ["archived"]
    raises [AttributeError] instead of the 400, and a valid status for a
    missing booking raises [AttributeError] instead of the 404. *)
Theorem C7_update_booking_status_errors_raise_AttributeError :
  (forall (db : Session) (booking_id : Z),
     main.update_booking_status booking_id "archived" db
     = (Raise (AttributeError
                 "'str' object has no attribute 'HTTP_400_BAD_REQUEST'"), db))
  /\ main.update_booking_status 999 "confirmed" db_day
     = (Raise (AttributeError
                 "'str' object has no attribute 'HTTP_404_NOT_FOUND'"), db_day).
Proof. split; reflexivity. Qed.

(** The same for every unrecognised status and every missing booking. *)
Lemma update_booking_status_invalid (db : Session) (booking_id : Z) (st : string) :
  str_in st ["pending"; "confirmed"; "cancelled"; "completed"] = false ->
  main.update_booking_status booking_id st db
  = (Raise (AttributeError
              "'str' object has no attribute 'HTTP_400_BAD_REQUEST'"), db).
Proof. intros H. unfold main.update_booking_status. now rewrite H. Qed.

Lemma update_booking_status_missing (db : Session) (booking_id : Z) (st : string) :
  str_in st ["pending"; "confirmed"; "cancelled"; "completed"] = true ->
  booking_crud.get_booking db booking_id = None ->
  main.update_booking_status booking_id st db
  = (Raise (AttributeError
              "'str' object has no attribute 'HTTP_404_NOT_FOUND'"), db).
Proof.
  intros H Hb. unfold main.update_booking_status, booking_crud.update_booking_status.
  unfold booking_crud.get_booking in Hb. now rewrite H, Hb.
Qed.

(** ** Partial field update *)

Lemma setattrs_Return (b b' : Booking) (upd : BookingUpdate) :
  booking_crud.setattrs b upd = Return b' ->
  id b' = id b /\ user_id b' = user_id b /\ service_id b' = service_id b
  /\ status b' = status b
  /\ merged (u_booking_date upd) (booking_date b) (booking_date b')
  /\ merged (u_start_time upd) (start_time b) (start_time b')
  /\ merged (u_end_time upd) (end_time b) (end_time b')
  /\ merged_nullable (u_notes upd) (notes b) (notes b')
  /\ merged (u_total_price upd) (total_price b) (total_price b').
Proof.
  destruct upd as [d s e n p]. unfold booking_crud.setattrs, merged, merged_nullable.
  cbn [u_booking_date u_start_time u_end_time u_notes u_total_price].
  destruct d as [[d|]|], s as [[s|]|], e as [[e|]|], p as [[p|]|];
    cbn [bind booking_crud.set_required]; try discriminate;
    intros [= <-]; cbn [id user_id service_id status booking_date start_time
                        end_time notes total_price];
    (repeat split; try reflexivity; try discriminate; try (intros ? [= <-]; reflexivity));
    destruct n; cbn [booking_crud.set_nullable];
    try reflexivity; try discriminate; intros ? [= <-]; reflexivity.
Qed.

Lemma setattrs_no_null (b : Booking) (upd : BookingUpdate) :
  no_null upd -> exists b', booking_crud.setattrs b upd = Return b'.
Proof.
  destruct upd as [d s e n p]. unfold no_null, booking_crud.setattrs.
  cbn [u_booking_date u_start_time u_end_time u_notes u_total_price].
  intros (Hd & Hs & He & Hp).
  destruct d as [[d|]|], s as [[s|]|], e as [[e|]|], p as [[p|]|];
    try congruence; cbn [bind booking_crud.set_required]; eexists; reflexivity.
Qed.



(** The update is not checked against the other bookings: moving booking
    2 onto the slot of booking 1 succeeds although the checker, asked
    for that slot with booking 2 excluded, reports it taken. *)
Lemma update_booking_onto_taken_slot :
  booking_crud.check_availability db_two 1 540 600 (Some 2) = false
  /\ main.update_booking 2 move_to_9 db_two
     = (Return (slot 2 1 540 600 "pending"),
        db_with [slot 1 1 540 600 "confirmed"; slot 2 1 540 600 "pending"]).
Proof. split; reflexivity. Qed.

(** ** Deletion *)

Lemma get_booking_after_delete (rows : list Booking) (j k : Z) :
  first (filter (fun b => id b =? k) (filter (fun r => negb (id r =? j)) rows))
  = if k =? j then None else first (filter (fun b => id b =? k) rows).
Proof.
  induction rows as [|r rows IH]; cbn [filter].
  - now destruct (k =? j).
  - destruct (id r =? j) eqn:Ej; cbn [negb filter].
    + apply Z.eqb_eq in Ej. rewrite IH.
      destruct (Z.eqb_spec k j) as [Hkj|Hkj]; [reflexivity|].
      destruct (Z.eqb_spec (id r) k); [congruence|reflexivity].
    + destruct (id r =? k) eqn:Ek; cbn [first]; [|exact IH].
      apply Z.eqb_eq in Ek. rewrite <- Ek, Ej. reflexivity.
Qed.



(** ** Pages: [offset] then [limit] *)

Lemma page_subset {A : Type} (skip lim : Z) (q : list A) (x : A) :
  In x (limit lim (offset skip q)) -> In x q.
Proof.
  unfold limit, offset. intros Hx.
  rewrite <- (firstn_skipn (Z.to_nat skip) q). apply in_or_app. right.
  destruct (lim <? 0); [assumption|].
  rewrite <- (firstn_skipn (Z.to_nat lim) (skipn (Z.to_nat skip) q)).
  apply in_or_app. now left.
Qed.

Lemma page_length {A : Type} (skip lim : Z) (q : list A) :
  0 <= lim -> Z.of_nat (List.length (limit lim (offset skip q))) <= lim.
Proof.
  intros Hlim. unfold limit. destruct (Z.ltb_spec lim 0); [lia|].
  pose proof (firstn_le_length (Z.to_nat lim) (offset skip q)). lia.
Qed.

Lemma page_whole {A : Type} (lim : Z) (q : list A) :
  Z.of_nat (List.length q) <= lim -> limit lim (offset 0 q) = q.
Proof.
  intros Hlen. unfold limit, offset. cbn [Z.to_nat skipn].
  destruct (lim <? 0); [reflexivity|]. apply firstn_all2. lia.
Qed.

Lemma page_past_end {A : Type} (skip lim : Z) (q : list A) :
  Z.of_nat (List.length q) <= skip -> limit lim (offset skip q) = [].
Proof.
  intros Hlen. unfold limit, offset. rewrite skipn_all2 by lia.
  destruct (lim <? 0); [reflexivity|]. apply firstn_nil.
Qed.

Lemma firstn_plus {A : Type} (a b : nat) (q : list A) :
  firstn (a + b) q = (firstn a q ++ firstn b (skipn a q))%list.
Proof.
  revert q. induction a as [|a IH]; intros q; [reflexivity|].
  destruct q as [|x q]; cbn [Nat.add firstn skipn app].
  - now rewrite firstn_nil.
  - now rewrite IH.
Qed.

Lemma page_split {A : Type} (skip a b : Z) (q : list A) :
  0 <= skip -> 0 <= a -> 0 <= b ->
  limit (a + b) (offset skip q)
  = (limit a (offset skip q) ++ limit b (offset (skip + a) q))%list.
Proof.
  intros Hs Ha Hb. unfold limit, offset.
  destruct (Z.ltb_spec (a + b) 0); [lia|].
  destruct (Z.ltb_spec a 0); [lia|]. destruct (Z.ltb_spec b 0); [lia|].
  rewrite !Z2Nat.inj_add by lia. rewrite firstn_plus.
  f_equal. f_equal. rewrite Nat.add_comm. now rewrite skipn_skipn.
Qed.

(** ** Listing bookings *)

Lemma filter_when (c : bool) (p : Booking -> bool) (rows : list Booking) :
  (if c then filter p rows else rows)
  = filter (fun b => if c then p b else true) rows.
Proof.
  destruct c; [reflexivity|]. induction rows as [|r rows IH]; [reflexivity|].
  cbn [filter]. now rewrite <- IH.
Qed.

Lemma get_bookings_selected (db : Session) (skip lim : Z)
    (u s : option Z) (st : option string) :
  booking_crud.get_bookings db skip lim u s st
  = limit lim (offset skip (filter (selected u s st) (bookings db))).
Proof.
  unfold booking_crud.get_bookings.
  rewrite (filter_when (truthy u)), (filter_when (truthy s)),
    (filter_when (truthy_str st)), !query_filter_twice.
  do 2 f_equal. apply filter_ext. intros b. unfold selected.
  now rewrite andb_assoc.
Qed.

Lemma selected_matches (u s : option Z) (st : option string) (b : Booking) :
  selected u s st b = true <-> matches u s st b.
Proof.
  unfold selected, matches. rewrite !andb_true_iff.
  assert (Hu : (if truthy u then booking_crud.eq (user_id b) u else true) = true
               <-> (forall x, u = Some x -> x <> 0 -> user_id b = x)).
  { destruct u as [x|]; cbn [truthy booking_crud.eq].
    - destruct (Z.eqb_spec x 0) as [->|Hx]; cbn [negb].
      + split; [intros _ y [= <-] Hy; congruence | reflexivity].
      + rewrite Z.eqb_eq. split; [intros H y [= <-] _; exact H | eauto].
    - split; [intros _ y Hy; discriminate | reflexivity]. }
  assert (Hs : (if truthy s then booking_crud.eq (service_id b) s else true) = true
               <-> (forall x, s = Some x -> x <> 0 -> service_id b = x)).
  { destruct s as [x|]; cbn [truthy booking_crud.eq].
    - destruct (Z.eqb_spec x 0) as [->|Hx]; cbn [negb].
      + split; [intros _ y [= <-] Hy; congruence | reflexivity].
      + rewrite Z.eqb_eq. split; [intros H y [= <-] _; exact H | eauto].
    - split; [intros _ y Hy; discriminate | reflexivity]. }
  assert (Ht : (if truthy_str st then booking_crud.eq_str (status b) st else true)
               = true
               <-> (forall x, st = Some x -> x <> EmptyString -> status b = x)).
  { destruct st as [x|]; cbn [truthy_str booking_crud.eq_str].
    - destruct (String.eqb_spec x EmptyString) as [->|Hx]; cbn [negb].
      + split; [intros _ y [= <-] Hy; congruence | reflexivity].
      + rewrite String.eqb_eq. split; [intros H y [= <-] _; exact H | eauto].
    - split; [intros _ y Hy; discriminate | reflexivity]. }
  rewrite Hu, Hs, Ht. tauto.
Qed.

(** X1.  [get_bookings] returns stored bookings that meet every filter
    given with a truthy value; with [skip = 0] and a [limit] no smaller
    than the table it returns all of them.  A filter given as [0] (or as
    the empty status) is not applied at all. *)
Theorem X1_get_bookings_filters
    (db : Session) (skip lim : Z) (u s : option Z) (st : option string) :
  (forall b, In b (booking_crud.get_bookings db skip lim u s st) ->
     In b (bookings db) /\ matches u s st b)
  /\ (Z.of_nat (List.length (bookings db)) <= lim ->
      forall b, In b (bookings db) -> matches u s st b ->
        In b (booking_crud.get_bookings db 0 lim u s st))
  /\ booking_crud.get_bookings db skip lim (Some 0) s st
     = booking_crud.get_bookings db skip lim None s st
  /\ booking_crud.get_bookings db skip lim u (Some 0) st
     = booking_crud.get_bookings db skip lim u None st
  /\ booking_crud.get_bookings db skip lim u s (Some EmptyString)
     = booking_crud.get_bookings db skip lim u s None.
Proof.
  split; [|split; [|repeat split]].
  - intros b Hb. rewrite get_bookings_selected in Hb.
    apply page_subset, filter_In in Hb as [Hin Hsel].
    split; [assumption | now apply selected_matches].
  - intros Hlen b Hin Hm. rewrite get_bookings_selected, page_whole.
    + apply filter_In. split; [assumption | now apply selected_matches].
    + pose proof (filter_length_le (selected u s st) (bookings db)). lia.
Qed.

Lemma X1_get_bookings_filters_witness :
  Z.of_nat (List.length (bookings db_day)) <= 100
  /\ In (slot 3 2 540 600 "pending") (bookings db_day)
  /\ matches None (Some 2) (Some "pending") (slot 3 2 540 600 "pending")
  /\ In (slot 3 2 540 600 "pending")
       (booking_crud.get_bookings db_day 0 100 None (Some 2) (Some "pending")).
Proof.
  assert (Hlen : Z.of_nat (List.length (bookings db_day)) <= 100) by (simpl; lia).
  assert (Hin : In (slot 3 2 540 600 "pending") (bookings db_day))
    by (right; right; left; reflexivity).
  assert (Hm : matches None (Some 2) (Some "pending") (slot 3 2 540 600 "pending")).
  { repeat split; intros x [= <-] _; reflexivity. }
  split; [exact Hlen|]. split; [exact Hin|]. split; [exact Hm|].
  exact (proj1 (proj2 (X1_get_bookings_filters db_day 0 100 None (Some 2)
                         (Some "pending"))) Hlen _ Hin Hm).
Defined.

(** X2.  The per-user and per-service listings return stored bookings of
    that user or service, never more than a non-negative [limit], and
    consecutive pages glue: the page of [a + b] rows at [skip] is the
    page of [a] rows at [skip] followed by the page of [b] rows at
    [skip + a]. *)
Theorem X2_listing_pages
    (db : Session) (key skip a b : Z) :
  0 <= skip -> 0 <= a -> 0 <= b ->
  (forall r, In r (booking_crud.get_bookings_by_user db key skip a) ->
     In r (bookings db) /\ user_id r = key)
  /\ (forall r, In r (booking_crud.get_bookings_by_service db key skip a) ->
        In r (bookings db) /\ service_id r = key)
  /\ Z.of_nat (List.length (booking_crud.get_bookings_by_user db key skip a)) <= a
  /\ Z.of_nat (List.length (booking_crud.get_bookings_by_service db key skip a)) <= a
  /\ booking_crud.get_bookings_by_user db key skip (a + b)
     = (booking_crud.get_bookings_by_user db key skip a
        ++ booking_crud.get_bookings_by_user db key (skip + a) b)%list
  /\ booking_crud.get_bookings_by_service db key skip (a + b)
     = (booking_crud.get_bookings_by_service db key skip a
        ++ booking_crud.get_bookings_by_service db key (skip + a) b)%list.
Proof.
  intros Hs Ha Hb.
  unfold booking_crud.get_bookings_by_user, booking_crud.get_bookings_by_service.
  repeat split.
  - now apply page_subset, filter_In in H.
  - apply page_subset, filter_In in H as [_ H]. now apply Z.eqb_eq.
  - now apply page_subset, filter_In in H.
  - apply page_subset, filter_In in H as [_ H]. now apply Z.eqb_eq.
  - now apply page_length.
  - now apply page_length.
  - now apply page_split.
  - now apply page_split.
Qed.

Lemma X2_listing_pages_witness :
  booking_crud.get_bookings_by_service db_day 1 0 (1 + 1)
  = (booking_crud.get_bookings_by_service db_day 1 0 1
     ++ booking_crud.get_bookings_by_service db_day 1 (0 + 1) 1)%list.
Proof.
  refine (proj2 (proj2 (proj2 (proj2 (proj2
            (X2_listing_pages db_day 1 0 1 1 _ _ _)))))); lia.
Defined.

(** X3.  The date-range listing returns stored bookings whose
    [booking_date] lies in the closed range, both ends included; a
    range whose end precedes its start selects nothing; and unpaged it
    returns every booking in the range. *)
Theorem X3_date_range_inclusive
    (db : Session) (start_date end_date skip lim : Z) :
  (forall b,
     In b (booking_crud.get_bookings_by_date_range db start_date end_date skip lim) ->
     In b (bookings db) /\ start_date <= booking_date b <= end_date)
  /\ (end_date < start_date ->
      booking_crud.get_bookings_by_date_range db start_date end_date skip lim = [])
  /\ (Z.of_nat (List.length (bookings db)) <= lim ->
      forall b, In b (bookings db) ->
        start_date <= booking_date b <= end_date ->
        In b (booking_crud.get_bookings_by_date_range db start_date end_date 0 lim)).
Proof.
  unfold booking_crud.get_bookings_by_date_range. split; [|split].
  - intros b Hb. apply page_subset, filter_In in Hb as [Hin Hb].
    apply andb_true_iff in Hb as [H1 H2]. split; [assumption|]. lia.
  - intros Hrev. rewrite (first_filter_None_nil _ (bookings db)).
    + unfold limit, offset. rewrite skipn_nil. destruct (lim <? 0); [reflexivity|].
      apply firstn_nil.
    + intros b _. apply andb_false_iff. lia.
  - intros Hlen b Hin Hb. rewrite page_whole.
    + apply filter_In. split; [assumption|]. apply andb_true_iff. lia.
    + pose proof (filter_length_le
                    (fun b => (booking_date b >=? start_date)
                              && (booking_date b <=? end_date)) (bookings db)). lia.
Qed.

Lemma X3_date_range_inclusive_witness :
  5 < 7
  /\ booking_crud.get_bookings_by_date_range db_day 7 5 0 10 = [].
Proof.
  split; [lia|].
  apply (proj1 (proj2 (X3_date_range_inclusive db_day 7 5 0 10))). lia.
Defined.

(** ** Booking history *)

Lemma insert_desc_perm (x : Booking) (rows : list Booking) :
  Permutation (insert_desc booking_date x rows) (x :: rows).
Proof.
  induction rows as [|r rows IH]; cbn [insert_desc]; [reflexivity|].
  destruct (booking_date r <=? booking_date x); [reflexivity|].
  rewrite IH. apply perm_swap.
Qed.

Lemma order_by_desc_perm (rows : list Booking) :
  Permutation (order_by_desc booking_date rows) rows.
Proof.
  unfold order_by_desc. induction rows as [|r rows IH]; cbn [fold_right];
    [reflexivity|].
  rewrite insert_desc_perm. now constructor.
Qed.

Lemma insert_desc_newest_first (x : Booking) (rows : list Booking) :
  newest_first rows -> newest_first (insert_desc booking_date x rows).
Proof.
  unfold newest_first. induction rows as [|r rows IH]; cbn [insert_desc].
  - intros _. repeat constructor.
  - intros Hs. apply StronglySorted_inv in Hs as [Hs Hr].
    destruct (Z.leb_spec (booking_date r) (booking_date x)) as [Hle|Hgt].
    + constructor; [now constructor|]. constructor; [assumption|].
      rewrite Forall_forall in *. intros y Hy. specialize (Hr y Hy). lia.
    + constructor; [now apply IH|].
      rewrite Forall_forall in *. intros y Hy.
      apply (Permutation_in _ (insert_desc_perm x rows)) in Hy.
      destruct Hy as [<-|Hy]; [lia | now apply Hr].
Qed.

Lemma order_by_desc_newest_first (rows : list Booking) :
  newest_first (order_by_desc booking_date rows).
Proof.
  unfold order_by_desc. induction rows as [|r rows IH]; cbn [fold_right].
  - constructor.
  - now apply insert_desc_newest_first.
Qed.

Lemma newest_first_skipn (n : nat) (rows : list Booking) :
  newest_first rows -> newest_first (skipn n rows).
Proof.
  unfold newest_first. revert rows. induction n as [|n IH]; intros rows Hs;
    [assumption|].
  destruct rows as [|r rows]; [assumption|]. cbn [skipn]. apply IH.
  now apply StronglySorted_inv in Hs.
Qed.

Lemma newest_first_firstn (n : nat) (rows : list Booking) :
  newest_first rows -> newest_first (firstn n rows).
Proof.
  unfold newest_first. revert rows. induction n as [|n IH]; intros rows Hs;
    [constructor|].
  destruct rows as [|r rows]; [constructor|]. cbn [firstn].
  apply StronglySorted_inv in Hs as [Hs Hr]. constructor; [now apply IH|].
  rewrite Forall_forall in *. intros y Hy. apply Hr.
  rewrite <- (firstn_skipn n rows). apply in_or_app. now left.
Qed.

Lemma newest_first_page (skip lim : Z) (rows : list Booking) :
  newest_first rows -> newest_first (limit lim (offset skip rows)).
Proof.
  intros Hs. unfold limit, offset. destruct (lim <? 0).
  - now apply newest_first_skipn.
  - now apply newest_first_firstn, newest_first_skipn.
Qed.

Lemma str_in_closed (b : Booking) :
  str_in (status b) [BookingStatus.COMPLETED; BookingStatus.CANCELLED] = true
  <-> closed b.
Proof.
  unfold str_in, closed. cbn [existsb]. rewrite !orb_true_iff, !String.eqb_eq.
  intuition discriminate.
Qed.

(** X4.  A user's history lists newest first, and only that user's
    completed and cancelled bookings; unpaged, it is a rearrangement of
    exactly those bookings of the table. *)
Theorem X4_history_newest_first
    (db : Session) (uid skip lim : Z) :
  newest_first (booking_crud.get_user_booking_history db uid skip lim)
  /\ (forall b, In b (booking_crud.get_user_booking_history db uid skip lim) ->
        In b (bookings db) /\ user_id b = uid /\ closed b)
  /\ (Z.of_nat (List.length (bookings db)) <= lim ->
      forall b, In b (bookings db) -> user_id b = uid -> closed b ->
        In b (booking_crud.get_user_booking_history db uid 0 lim)).
Proof.
  unfold booking_crud.get_user_booking_history.
  set (keep := fun b : Booking =>
                 (user_id b =? uid)
                 && str_in (status b)
                      [BookingStatus.COMPLETED; BookingStatus.CANCELLED]).
  assert (Hkeep : forall b, In b (order_by_desc booking_date (filter keep (bookings db)))
                            <-> In b (bookings db) /\ user_id b = uid /\ closed b).
  { intros b. split.
    - intros H. apply (Permutation_in _ (order_by_desc_perm _)) in H.
      apply filter_In in H as [Hin Hk]. unfold keep in Hk.
      apply andb_true_iff in Hk as [H1 H2]. apply Z.eqb_eq in H1.
      apply str_in_closed in H2. auto.
    - intros (Hin & Hu & Hc).
      apply (Permutation_in _ (Permutation_sym (order_by_desc_perm _))).
      apply filter_In. split; [assumption|]. unfold keep. apply andb_true_iff.
      split; [now apply Z.eqb_eq | now apply str_in_closed]. }
  split; [|split].
  - apply newest_first_page, order_by_desc_newest_first.
  - intros b Hb. apply page_subset in Hb. now apply Hkeep.
  - intros Hlen b Hin Hu Hc. rewrite page_whole; [now apply Hkeep|].
    rewrite (Permutation_length (order_by_desc_perm _)).
    pose proof (filter_length_le keep (bookings db)). lia.
Qed.

Lemma X4_history_newest_first_witness :
  booking_crud.get_user_booking_history db_day 1 0 10
  = [slot 2 1 600 660 "cancelled"]
  /\ In (slot 2 1 600 660 "cancelled")
       (booking_crud.get_user_booking_history db_day 1 0 10).
Proof.
  split; [reflexivity|].
  apply (proj2 (proj2 (X4_history_newest_first db_day 1 0 10))).
  - simpl; lia.
  - right; left; reflexivity.
  - reflexivity.
  - right; reflexivity.
Defined.

(** ** The read endpoints *)



(** X6.  What [POST /bookings/] returns can be read back: its id did not
    resolve before, resolves to the returned booking afterwards, the
    booking carries the fields of the request, and every other id
    resolves as before. *)
Theorem X6_create_then_get
    (db db' : Session) (booking : BookingCreate) (b : Booking) :
  main.create_booking booking db = (Return b, db') ->
  main.get_booking (id b) db' = Return b
  /\ main.get_booking (id b) db
     = Raise (HTTPException 404
                ("Booking with ID " ++ str_of_int (id b) ++ " not found"))
  /\ (forall k, k <> id b -> main.get_booking k db' = main.get_booking k db)
  /\ user_id b = c_user_id booking /\ service_id b = c_service_id booking
  /\ booking_date b = c_booking_date booking
  /\ start_time b = c_start_time booking /\ end_time b = c_end_time booking
  /\ notes b = c_notes booking /\ total_price b = c_total_price booking.
Proof.
  unfold main.create_booking.
  destruct (user_crud.get_user db _); [|discriminate].
  destruct (service_crud.get_service db _); [|discriminate].
  pose proof (get_booking_fresh db booking) as Hfresh.
  destruct (booking_crud.create_booking db booking) as [b0 db0] eqn:E.
  cbn [main.except_create]. intros [= <- <-]. destruct Hfresh as [Hget Hother].
  unfold main.get_booking. split; [now rewrite Hget|]. split; [|split].
  - unfold booking_crud.create_booking in E. injection E as <- _. cbn [id].
    unfold booking_crud.get_booking.
    rewrite (first_filter_None_nil _ (bookings db)); [reflexivity|].
    intros r Hr. apply Z.eqb_neq.
    pose proof (proj2 (next_id_above (map id (bookings db))) (id r)
                  (in_map id _ _ Hr)). lia.
  - intros k Hk. now rewrite Hother.
  - unfold booking_crud.create_booking in E. injection E as <- _.
    repeat split.
Qed.

Lemma X6_create_then_get_witness :
  main.create_booking (req 1 1 540 600) db_seed
  = (Return (slot 1 1 540 600 "pending"), db_with [slot 1 1 540 600 "pending"])
  /\ main.get_booking 1 (db_with [slot 1 1 540 600 "pending"])
     = Return (slot 1 1 540 600 "pending").
Proof.
  split; [reflexivity|].
  exact (proj1 (X6_create_then_get db_seed (db_with [slot 1 1 540 600 "pending"])
                  (req 1 1 540 600) (slot 1 1 540 600 "pending") eq_refl)).
Defined.

(** ** Booking statistics *)

Lemma no_key_counted (x : string) (ks : list string) :
  ~ In x ks ->
  fold_right Nat.add 0%nat (map (fun k => if (x =? k)%string then 1%nat else 0%nat) ks) = 0%nat.
Proof.
  induction ks as [|k ks IH]; [reflexivity|]. intros Hx. cbn [map fold_right].
  destruct (String.eqb_spec x k) as [->|_].
  - exfalso. apply Hx. now left.
  - apply IH. intros H. apply Hx. now right.
Qed.

Lemma one_key_counted (x : string) (ks : list string) :
  NoDup ks -> In x ks ->
  fold_right Nat.add 0%nat (map (fun k => if (x =? k)%string then 1%nat else 0%nat) ks) = 1%nat.
Proof.
  induction ks as [|k ks IH]; [intros _ []|].
  intros Hnd Hin. apply NoDup_cons_iff in Hnd as [Hk Hnd]. cbn [map fold_right].
  destruct (String.eqb_spec x k) as [->|Hne].
  - now rewrite no_key_counted.
  - destruct Hin as [->|Hin]; [congruence|]. now apply IH.
Qed.

Lemma sum_pointwise {K : Type} (f g : K -> nat) (ks : list K) :
  fold_right Nat.add 0%nat (map (fun k => (f k + g k)%nat) ks)
  = (fold_right Nat.add 0%nat (map f ks)
     + fold_right Nat.add 0%nat (map g ks))%nat.
Proof.
  induction ks as [|k ks IH]; [reflexivity|]. cbn [map fold_right]. lia.
Qed.

Lemma groups_cover (rows : list Booking) (ks : list string) :
  NoDup ks -> (forall r, In r rows -> In (status r) ks) ->
  fold_right Nat.add 0%nat (map (fun k => List.length
                            (filter (fun b => (status b =? k)%string) rows)) ks)
  = List.length rows.
Proof.
  intros Hnd. induction rows as [|r rows IH]; intros Hcov.
  - cbn [filter List.length]. induction ks as [|k ks IHk]; [reflexivity|].
    cbn [map fold_right]. apply NoDup_cons_iff in Hnd as [_ Hnd]. now rewrite IHk.
  - transitivity
      (fold_right Nat.add 0%nat
         (map (fun k => if (status r =? k)%string then 1%nat else 0%nat) ks)
       + fold_right Nat.add 0%nat
           (map (fun k => List.length
                            (filter (fun b => (status b =? k)%string) rows)) ks))%nat.
    + rewrite <- sum_pointwise. f_equal. apply map_ext. intros k.
      cbn [filter]. now destruct (status r =? k)%string.
    + rewrite one_key_counted by (try assumption; apply Hcov; now left).
      rewrite IH by (intros x Hx; apply Hcov; now right). reflexivity.
Qed.

Lemma sum_counts (rows : list Booking) (ks : list string) :
  fold_right Z.add 0
    (map snd
       (map (fun st =>
               (st, Z.of_nat (List.length
                                (filter (fun b => (status b =? st)%string) rows))))
            ks))
  = Z.of_nat
      (fold_right Nat.add 0%nat (map (fun k => List.length
                                 (filter (fun b => (status b =? k)%string) rows))
                     ks)).
Proof.
  induction ks as [|k ks IH]; [reflexivity|].
  cbn [map fold_right snd]. rewrite IH. lia.
Qed.

Lemma count_status_pos (db : Session) (st : string) :
  1 <= count_status db st <-> exists b, In b (bookings db) /\ status b = st.
Proof.
  unfold count_status. split.
  - destruct (filter _ (bookings db)) as [|b l] eqn:E; [cbn; lia|]. intros _.
    assert (Hb : In b (filter (fun b => (status b =? st)%string) (bookings db)))
      by (rewrite E; now left).
    apply filter_In in Hb as [Hin Hst]. apply String.eqb_eq in Hst. eauto.
  - intros (b & Hin & Hst).
    assert (Hb : In b (filter (fun b => (status b =? st)%string) (bookings db)))
      by (apply filter_In; split; [assumption | now apply String.eqb_eq]).
    destruct (filter _ (bookings db)); [destruct Hb|]. cbn [List.length]. lia.
Qed.

(** X7.  The status distribution has one entry per status in use, each
    with the number of bookings of that status (at least 1), and its
    counts add up to the total number of bookings. *)
Theorem X7_status_distribution_adds_up (db : Session) :
  NoDup (map fst (booking_crud.status_stats db))
  /\ (forall st n, In (st, n) (booking_crud.status_stats db)
        <-> n = count_status db st /\ 1 <= n)
  /\ fold_right Z.add 0 (map snd (booking_crud.status_stats db))
     = booking_crud.total_bookings db.
Proof.
  unfold booking_crud.status_stats, booking_crud.total_bookings.
  split; [|split].
  - rewrite map_map. cbn [fst]. rewrite map_id. apply NoDup_nodup.
  - intros st n. rewrite in_map_iff. split.
    + intros (k & [= <- <-] & Hk). split; [reflexivity|].
      apply nodup_In, in_map_iff in Hk as (b & Hst & Hb).
      apply count_status_pos. eauto.
    + intros [-> Hpos]. exists st. split; [reflexivity|].
      apply nodup_In, in_map_iff.
      apply count_status_pos in Hpos as (b & Hb & Hst). eauto.
  - rewrite sum_counts, groups_cover; [reflexivity | apply NoDup_nodup |].
    intros r Hr. apply nodup_In. now apply in_map.
Qed.

(** ** Freeing and taking slots *)

Lemma count_replaced_inactive (rows : list Booking) (row : Booking) (j : Z)
    (sid s e : Z) (ex : option Z) :
  counted sid s e ex row = false ->
  filter (counted sid s e ex) (map (fun r => if id r =? j then row else r) rows)
  = filter (counted sid s e ex) (filter (fun r => negb (id r =? j)) rows).
Proof.
  intros Hrow. induction rows as [|r rows IH]; [reflexivity|].
  cbn [map filter]. destruct (id r =? j); cbn [negb filter].
  - now rewrite Hrow.
  - now rewrite IH.
Qed.

(** X8.  For availability, cancelling or completing a stored booking is
    the same as deleting it: after either, the checker gives the same
    answer to every question; and no slot that was available before is
    taken afterwards. *)
Theorem X8_cancel_frees_slot_like_delete
    (db : Session) (booking_id : Z) (st : string) (b : Booking) :
  booking_crud.get_booking db booking_id = Some b ->
  st = BookingStatus.CANCELLED \/ st = BookingStatus.COMPLETED ->
  forall (sid s e : Z) (ex : option Z),
    booking_crud.check_availability
      (snd (main.update_booking_status booking_id st db)) sid s e ex
    = booking_crud.check_availability
        (snd (main.delete_booking booking_id db)) sid s e ex
    /\ (booking_crud.check_availability db sid s e ex = true ->
        booking_crud.check_availability
          (snd (main.update_booking_status booking_id st db)) sid s e ex = true).
Proof.
  intros Hb Hst sid s e ex.
  assert (Hvalid : str_in st ["pending"; "confirmed"; "cancelled"; "completed"] = true)
    by (destruct Hst as [->| ->]; reflexivity).
  assert (Heq :
    booking_crud.check_availability
      (snd (main.update_booking_status booking_id st db)) sid s e ex
    = booking_crud.check_availability
        (snd (main.delete_booking booking_id db)) sid s e ex).
  { unfold main.update_booking_status, booking_crud.update_booking_status,
      main.delete_booking, booking_crud.delete_booking.
    unfold booking_crud.get_booking in Hb. rewrite Hvalid, Hb.
    cbn [negb snd]. rewrite !check_availability_count.
    unfold booking_crud.store_row. cbn [bookings set_bookings id booking_crud.set_status].
    rewrite count_replaced_inactive; [reflexivity|].
    apply counted_inactive, closed_not_active.
    cbn [status booking_crud.set_status]. tauto. }
  split; [exact Heq|].
  rewrite Heq. rewrite !check_availability_true. intros Hfree r Hr. apply Hfree.
  unfold main.delete_booking, booking_crud.delete_booking in Hr.
  unfold booking_crud.get_booking in Hb. rewrite Hb in Hr.
  cbn [negb snd bookings set_bookings] in Hr. now apply filter_In in Hr.
Qed.

Lemma X8_cancel_frees_slot_like_delete_witness :
  booking_crud.get_booking db_day 1 = Some (slot 1 1 540 600 "confirmed")
  /\ booking_crud.check_availability db_day 1 540 600 None = false
  /\ booking_crud.check_availability
       (snd (main.update_booking_status 1 "cancelled" db_day)) 1 540 600 None
     = booking_crud.check_availability
         (snd (main.delete_booking 1 db_day)) 1 540 600 None.
Proof.
  split; [reflexivity|]. split; [reflexivity|].
  exact (proj1 (X8_cancel_frees_slot_like_delete db_day 1 "cancelled"
                  (slot 1 1 540 600 "confirmed") eq_refl (or_introl eq_refl)
                  1 540 600 None)).
Defined.



Lemma lookup_by_key (rows : list Booking) (b : Booking) :
  NoDup (map id rows) -> In b rows ->
  first (filter (fun r => id r =? id b) rows) = Some b.
Proof.
  induction rows as [|r rows IH]; [intros _ []|].
  cbn [map filter]. intros Hnd Hin. apply NoDup_cons_iff in Hnd as [Hr Hnd].
  destruct Hin as [->|Hin].
  - now rewrite Z.eqb_refl.
  - destruct (Z.eqb_spec (id r) (id b)) as [Heq|_]; [|now apply IH].
    exfalso. apply Hr. rewrite Heq. now apply in_map.
Qed.

(** X10.  After any sequence of booking writes on a table keyed as the
    store keys it, every stored booking has an id of at least 1 and is
    the one its id resolves to, in the table and at [GET /bookings/{id}]. *)
Theorem X10_ids_resolve_to_their_booking
    (db : Session) (rs : list request) (b : Booking) :
  pk_ok (bookings db) ->
  In b (bookings (run db rs)) ->
  1 <= id b
  /\ booking_crud.get_booking (run db rs) (id b) = Some b
  /\ main.get_booking (id b) (run db rs) = Return b.
Proof.
  intros Hok Hb. destruct (pk_ok_run rs db Hok) as [Hnd Hpos].
  assert (Hget : booking_crud.get_booking (run db rs) (id b) = Some b)
    by now apply lookup_by_key.
  split; [|split; [exact Hget|]].
  - rewrite Forall_forall in Hpos. apply Hpos. now apply in_map.
  - unfold main.get_booking. now rewrite Hget.
Qed.

Lemma X10_ids_resolve_to_their_booking_witness :
  pk_ok (bookings db_seed)
  /\ In (slot 1 1 540 600 "cancelled")
       (bookings (run db_seed [POST_bookings body_with_status;
                               PATCH_booking_status 1 "cancelled"]))
  /\ main.get_booking 1
       (run db_seed [POST_bookings body_with_status;
                     PATCH_booking_status 1 "cancelled"])
     = Return (slot 1 1 540 600 "cancelled").
Proof.
  assert (Hok : pk_ok (bookings db_seed)) by apply pk_ok_nil.
  assert (Hin : In (slot 1 1 540 600 "cancelled")
                  (bookings (run db_seed [POST_bookings body_with_status;
                                          PATCH_booking_status 1 "cancelled"])))
    by (left; reflexivity).
  split; [exact Hok|]. split; [exact Hin|].
  exact (proj2 (proj2 (X10_ids_resolve_to_their_booking db_seed _ _ Hok Hin))).
Defined.

(** X11.  A booking just created takes its slot: asked with no exclusion
    the checker reports the slot unavailable (for a non-empty interval),
    and asked with the new booking's id excluded it answers every
    question as it answered, unexcluded, before the creation. *)
Theorem X11_create_then_check
    (db : Session) (booking : BookingCreate) (sid s e : Z) :
  booking_crud.check_availability (snd (booking_crud.create_booking db booking))
    sid s e (Some (id (fst (booking_crud.create_booking db booking))))
  = booking_crud.check_availability db sid s e None
  /\ (c_start_time booking < c_end_time booking ->
      booking_crud.check_availability (snd (booking_crud.create_booking db booking))
        (c_service_id booking) (c_start_time booking) (c_end_time booking) None
      = false).
Proof.
  split; [|apply check_availability_after_create].
  rewrite !check_availability_count.
  unfold booking_crud.create_booking. cbn [fst snd id bookings set_bookings].
  destruct (next_id_above (map id (bookings db))) as [Hpos Hlt].
  set (n := next_id (map id (bookings db))) in *.
  rewrite filter_app. cbn [filter].
  assert (Hn : truthy (Some n) = true)
    by (cbn [truthy]; destruct (Z.eqb_spec n 0); [lia | reflexivity]).
  replace (counted sid s e (Some n) _) with false.
  - rewrite app_nil_r. do 3 f_equal. apply filter_ext_in. intros r Hr.
    unfold counted. rewrite Hn. cbn [truthy booking_crud.ne].
    specialize (Hlt (id r) (in_map id _ _ Hr)).
    destruct (Z.eqb_spec (id r) n); [lia|]. reflexivity.
  - symmetry. unfold counted. rewrite Hn. cbn [booking_crud.ne id].
    rewrite Z.eqb_refl. apply andb_false_r.
Qed.

(** ** Reading the log *)

Lemma prefix_app (needle s : string) :
  String.prefix needle s = true <-> exists post, s = needle ++ post.
Proof.
  revert s. induction needle as [|c needle IH]; intros s.
  - split; [intros _; now exists s | destruct s; reflexivity].
  - destruct s as [|d s]; cbn [String.prefix String.append].
    + split; [discriminate | intros [post H]; discriminate].
    + destruct (Ascii.ascii_dec c d) as [->|Hne].
      * rewrite IH. split; intros [post H]; exists post; congruence.
      * split; [discriminate | intros [post H]; congruence].
Qed.

Lemma append_assoc_str (a b c : string) : (a ++ b) ++ c = a ++ b ++ c.
Proof.
  induction a as [|x a IH]; cbn [String.append]; [reflexivity | now rewrite IH].
Qed.

Lemma contains_substring (needle s : string) :
  contains needle s = true <-> exists pre post, s = pre ++ needle ++ post.
Proof.
  induction s as [|d s IH]; cbn [contains]; rewrite orb_true_iff, prefix_app.
  - split.
    + intros [[post H]|H]; [|discriminate]. now exists EmptyString, post.
    + intros (pre & post & H). left. destruct pre; [now exists post|discriminate].
  - rewrite IH. split.
    + intros [[post H]|(pre & post & H)].
      * now exists EmptyString, post.
      * exists (String d pre), post. cbn [String.append]. now rewrite H.
    + intros (pre & post & H). destruct pre as [|c pre].
      * left. now exists post.
      * right. exists pre, post. cbn [String.append] in H. congruence.
Qed.

Section ReadLogs.
Variables strip upper lower : string -> string.

Lemma filter_level_sound (level : option string) (all_lines filtered : list string) :
  log_reader.filter_level strip upper level all_lines = Some filtered ->
  (List.length filtered <= List.length all_lines)%nat
  /\ forall ln, In ln filtered ->
       In ln all_lines
       /\ forall l, level = Some l -> l <> EmptyString ->
            str_in (upper (strip l)) log_reader.LEVELS = true
            /\ contains ("[" ++ upper (strip l) ++ "]") ln = true.
Proof.
  unfold log_reader.filter_level. destruct level as [l|]; cbn [truthy_str].
  - destruct (String.eqb_spec l EmptyString) as [->|Hl]; cbn [negb].
    + intros [= <-]. split; [lia|]. intros ln Hln. split; [assumption|].
      intros l [= <-] Hne. congruence.
    + destruct (str_in (upper (strip l)) log_reader.LEVELS) eqn:Hlvl; cbn [negb];
        [|discriminate].
      intros [= <-]. split; [apply filter_length_le|].
      intros ln Hln. apply filter_In in Hln as [Hin Hc]. split; [assumption|].
      intros l' [= <-] _. auto.
  - intros [= <-]. split; [lia|]. intros ln Hln. split; [assumption|].
    intros l Hl. discriminate.
Qed.

Lemma filter_query_sound (query : option string) (filtered : list string) :
  (List.length (log_reader.filter_query lower query filtered)
   <= List.length filtered)%nat
  /\ forall ln, In ln (log_reader.filter_query lower query filtered) ->
       In ln filtered
       /\ forall q, query = Some q -> q <> EmptyString ->
            contains (lower q) (lower ln) = true.
Proof.
  unfold log_reader.filter_query. destruct query as [q|]; cbn [truthy_str].
  - destruct (String.eqb_spec q EmptyString) as [->|Hq]; cbn [negb].
    + split; [lia|]. intros ln Hln. split; [assumption|].
      intros q [= <-] Hne. congruence.
    + split; [apply filter_length_le|].
      intros ln Hln. apply filter_In in Hln as [Hin Hc]. split; [assumption|].
      intros q' [= <-] _. assumption.
  - split; [lia|]. intros ln Hln. split; [assumption|]. intros q Hq. discriminate.
Qed.

(** X12.  A missing log file, or a level that is not one of the five
    known ones once stripped and upper-cased, gives no lines and a
    total of 0, whatever the query and the page. *)
Theorem X12_read_logs_unknown_level
    (file : option (list string)) (level query : option string)
    (offset_ limit_ : Z) :
  log_reader.read_logs strip upper lower None level query offset_ limit_ = ([], 0)
  /\ (forall l, level = Some l -> l <> EmptyString ->
        str_in (upper (strip l)) log_reader.LEVELS = false ->
        log_reader.read_logs strip upper lower file level query offset_ limit_
        = ([], 0)).
Proof.
  split; [reflexivity|]. intros l -> Hl Hlvl.
  unfold log_reader.read_logs, log_reader.filter_level. cbn [truthy_str].
  destruct (String.eqb_spec l EmptyString); [congruence|]. cbn [negb].
  rewrite Hlvl. now destruct file.
Qed.

(** X13.  The page [read_logs] returns is never longer than the limit in
    force (the given one, or 100 when that is not positive) nor than
    the total; the total counts the matching lines before paging, so it
    is at most the length of the file and does not depend on [offset]
    and [limit]. *)
Theorem X13_read_logs_page_bounds
    (all_lines : list string) (level query : option string)
    (offset_ limit_ : Z) :
  let r := log_reader.read_logs strip upper lower (Some all_lines) level query
             offset_ limit_ in
  Z.of_nat (List.length (fst r)) <= (if limit_ <=? 0 then 100 else limit_)
  /\ Z.of_nat (List.length (fst r)) <= snd r
  /\ snd r <= Z.of_nat (List.length all_lines)
  /\ (forall offset' limit',
        snd (log_reader.read_logs strip upper lower (Some all_lines) level query
               offset' limit') = snd r).
Proof.
  cbv zeta. unfold log_reader.read_logs.
  destruct (log_reader.filter_level strip upper level all_lines) as [filtered|] eqn:Hl.
  - cbn [fst snd].
    destruct (filter_level_sound _ _ _ Hl) as [Hlen _].
    destruct (filter_query_sound query filtered) as [Hlen' _].
    set (f := log_reader.filter_query lower query filtered) in *.
    pose proof (firstn_le_length
                  (Z.to_nat (if limit_ <=? 0 then 100 else limit_))
                  (skipn (Z.to_nat (if offset_ <? 0 then 0 else offset_)) f)) as H1.
    pose proof (length_firstn
                  (Z.to_nat (if limit_ <=? 0 then 100 else limit_))
                  (skipn (Z.to_nat (if offset_ <? 0 then 0 else offset_)) f)) as H2.
    rewrite length_skipn in H2.
    repeat split; try reflexivity; try lia.
    destruct (Z.leb_spec limit_ 0); lia.
  - cbn [fst snd List.length]. repeat split; try reflexivity; try lia.
    destruct (Z.leb_spec limit_ 0); lia.
Qed.

(** X14.  Every line [read_logs] returns is a line of the file; when a
    level is given it is a known one and the line contains it in square
    brackets; when a query is given the lower-cased line contains the
    lower-cased query. *)
Theorem X14_read_logs_lines_match
    (all_lines : list string) (level query : option string)
    (offset_ limit_ : Z) (ln : string) :
  In ln (fst (log_reader.read_logs strip upper lower (Some all_lines) level query
                offset_ limit_)) ->
  In ln all_lines
  /\ (forall l, level = Some l -> l <> EmptyString ->
        In (upper (strip l)) log_reader.LEVELS
        /\ exists pre post, ln = pre ++ "[" ++ upper (strip l) ++ "]" ++ post)
  /\ (forall q, query = Some q -> q <> EmptyString ->
        exists pre post, lower ln = pre ++ lower q ++ post).
Proof.
  unfold log_reader.read_logs.
  destruct (log_reader.filter_level strip upper level all_lines) as [filtered|] eqn:Hl;
    [|intros []].
  cbn [fst]. intros Hln.
  assert (Hin : In ln (log_reader.filter_query lower query filtered)).
  { rewrite <- (firstn_skipn (Z.to_nat (if offset_ <? 0 then 0 else offset_))
                  (log_reader.filter_query lower query filtered)).
    apply in_or_app. right.
    rewrite <- (firstn_skipn (Z.to_nat (if limit_ <=? 0 then 100 else limit_))
                  (skipn _ _)).
    apply in_or_app. left. exact Hln. }
  destruct (filter_query_sound query filtered) as [_ Hq].
  destruct (Hq ln Hin) as [Hin' Hquery].
  destruct (filter_level_sound _ _ _ Hl) as [_ Hlev].
  destruct (Hlev ln Hin') as [Hfile Hlevel].
  split; [assumption|]. split.
  - intros l Hsome Hne. destruct (Hlevel l Hsome Hne) as [Hknown Hc]. split.
    + unfold str_in in Hknown. apply existsb_exists in Hknown as (x & Hx & Heq).
      apply String.eqb_eq in Heq. now rewrite Heq.
    + apply contains_substring in Hc as (pre & post & Hc). exists pre, post.
      rewrite Hc. f_equal. cbn [String.append]. f_equal.
      apply append_assoc_str.
  - intros q Hsome Hne. apply contains_substring. eauto.
Qed.

End ReadLogs.

Section ReadLogsPages.
Variables strip upper lower : string -> string.
Variables (file : option (list string)) (level query : option string).

(** X15.  The guard rails of the page: a negative [offset] reads as 0 and
    a [limit] that is not positive reads as 100. *)
Theorem X15_read_logs_guard_rails (offset_ limit_ : Z) :
  (offset_ < 0 ->
   log_reader.read_logs strip upper lower file level query offset_ limit_
   = log_reader.read_logs strip upper lower file level query 0 limit_)
  /\ (limit_ <= 0 ->
      log_reader.read_logs strip upper lower file level query offset_ limit_
      = log_reader.read_logs strip upper lower file level query offset_ 100).
Proof.
  unfold log_reader.read_logs. split; intros H.
  - destruct (Z.ltb_spec offset_ 0); [reflexivity | lia].
  - destruct (Z.leb_spec limit_ 0); [reflexivity | lia].
Qed.

(** X16.  Pages of the log glue and cover: the page of [a + b] lines at
    [offset] is the page of [a] lines at [offset] followed by the page
    of [b] lines at [offset + a]; a first page at least as long as the
    total holds every matching line; a page that starts at or past the
    total is empty. *)
Theorem X16_read_logs_pages (offset_ a b : Z) :
  0 <= offset_ -> 0 < a -> 0 < b ->
  fst (log_reader.read_logs strip upper lower file level query offset_ (a + b))
  = (fst (log_reader.read_logs strip upper lower file level query offset_ a)
     ++ fst (log_reader.read_logs strip upper lower file level query
               (offset_ + a) b))%list
  /\ (snd (log_reader.read_logs strip upper lower file level query 0 a) <= a ->
      Z.of_nat (List.length
                  (fst (log_reader.read_logs strip upper lower file level query 0 a)))
      = snd (log_reader.read_logs strip upper lower file level query 0 a))
  /\ (snd (log_reader.read_logs strip upper lower file level query offset_ a)
      <= offset_ ->
      fst (log_reader.read_logs strip upper lower file level query offset_ a) = []).
Proof.
  intros Ho Ha Hb. unfold log_reader.read_logs.
  destruct file as [all_lines|]; [|repeat split].
  destruct (log_reader.filter_level strip upper level all_lines) as [filtered|];
    [|repeat split].
  cbn [fst snd]. set (f := log_reader.filter_query lower query filtered).
  destruct (Z.ltb_spec offset_ 0); [lia|].
  destruct (Z.ltb_spec (offset_ + a) 0); [lia|].
  destruct (Z.leb_spec (a + b) 0); [lia|].
  destruct (Z.leb_spec a 0); [lia|]. destruct (Z.leb_spec b 0); [lia|].
  split; [|split].
  - rewrite !Z2Nat.inj_add by lia. rewrite firstn_plus. f_equal. f_equal.
    rewrite Nat.add_comm. now rewrite skipn_skipn.
  - change (Z.to_nat (if 0 <? 0 then 0 else 0)) with 0%nat. cbn [skipn].
    intros Hall. rewrite firstn_all2 by lia. reflexivity.
  - intros Hpast. rewrite skipn_all2 by lia. apply firstn_nil.
Qed.

End ReadLogsPages.

Lemma X12_read_logs_unknown_level_witness :
  "trace" <> EmptyString
  /\ str_in "trace" log_reader.LEVELS = false
  /\ log_reader.read_logs (fun s => s) (fun s => s) (fun s => s)
       (Some ["[INFO] started"; "[ERROR] failed"]) (Some "trace") None 0 10
     = ([], 0).
Proof.
  assert (Hne : "trace" <> EmptyString) by discriminate.
  split; [exact Hne|]. split; [reflexivity|].
  exact (proj2 (X12_read_logs_unknown_level (fun s => s) (fun s => s) (fun s => s)
                  (Some ["[INFO] started"; "[ERROR] failed"]) (Some "trace")
                  None 0 10) "trace" eq_refl Hne eq_refl).
Defined.

Lemma X14_read_logs_lines_match_witness :
  In "[ERROR] failed"
    (fst (log_reader.read_logs (fun s => s) (fun s => s) (fun s => s)
            (Some ["[INFO] started"; "[ERROR] failed"]) (Some "ERROR")
            (Some "fail") 0 10))
  /\ In "[ERROR] failed" ["[INFO] started"; "[ERROR] failed"].
Proof.
  assert (Hin : In "[ERROR] failed"
                  (fst (log_reader.read_logs (fun s => s) (fun s => s) (fun s => s)
                          (Some ["[INFO] started"; "[ERROR] failed"])
                          (Some "ERROR") (Some "fail") 0 10)))
    by (left; reflexivity).
  split; [exact Hin|].
  exact (proj1 (X14_read_logs_lines_match (fun s => s) (fun s => s) (fun s => s)
                  _ _ _ _ _ _ Hin)).
Defined.

Lemma X15_read_logs_guard_rails_witness :
  log_reader.read_logs (fun s => s) (fun s => s) (fun s => s)
    (Some ["[INFO] started"; "[ERROR] failed"]) None None (-5) 0
  = (["[INFO] started"; "[ERROR] failed"], 2).
Proof.
  rewrite (proj1 (X15_read_logs_guard_rails (fun s => s) (fun s => s) (fun s => s)
                    (Some ["[INFO] started"; "[ERROR] failed"]) None None (-5) 0))
    by lia.
  reflexivity.
Defined.

Lemma X16_read_logs_pages_witness :
  fst (log_reader.read_logs (fun s => s) (fun s => s) (fun s => s)
         (Some ["[INFO] started"; "[ERROR] failed"]) None None 0 (1 + 1))
  = (fst (log_reader.read_logs (fun s => s) (fun s => s) (fun s => s)
            (Some ["[INFO] started"; "[ERROR] failed"]) None None 0 1)
     ++ fst (log_reader.read_logs (fun s => s) (fun s => s) (fun s => s)
               (Some ["[INFO] started"; "[ERROR] failed"]) None None (0 + 1) 1))%list.
Proof.
  refine (proj1 (X16_read_logs_pages (fun s => s) (fun s => s) (fun s => s)
                   (Some ["[INFO] started"; "[ERROR] failed"]) None None 0 1 1
                   _ _ _)); lia.
Defined.

Lemma X11_create_then_check_witness :
  c_start_time (req 1 1 540 600) < c_end_time (req 1 1 540 600)
  /\ booking_crud.check_availability
       (snd (booking_crud.create_booking db_seed (req 1 1 540 600)))
       1 540 600 None = false.
Proof.
  assert (Hlt : c_start_time (req 1 1 540 600) < c_end_time (req 1 1 540 600))
    by (simpl; lia).
  split; [exact Hlt|].
  exact (proj2 (X11_create_then_check db_seed (req 1 1 540 600) 1 540 600) Hlt).
Defined.

(** ** User statistics *)

Lemma join_bookings_In (db : Session) (u : user.User) :
  In u (user_crud.join_bookings db) <-> In u (users db) /\ has_booking db u = true.
Proof.
  unfold user_crud.join_bookings, has_booking. rewrite in_flat_map. split.
  - intros (v & Hv & Hu). apply in_map_iff in Hu as (b & <- & Hb).
    apply filter_In in Hb as [Hb Hid]. split; [assumption|].
    apply existsb_exists. eauto.
  - intros [Hu Hb]. apply existsb_exists in Hb as (b & Hb & Hid).
    exists u. split; [assumption|]. apply in_map_iff. exists b.
    split; [reflexivity|]. apply filter_In. auto.
Qed.

(** X17.  In the user statistics the number of users with bookings and
    the number of active users lie between 0 and the number of users,
    the inactive count is what remains after the active ones, and no
    user has bookings when the bookings table is empty.  When the user
    rows are pairwise distinct, the users with bookings are counted
    once each, however many bookings they have. *)
Theorem X17_user_stats_bounds (db : Session) :
  let st := user_crud.get_user_stats db in
  0 <= user_crud.users_with_bookings st <= user_crud.total_users st
  /\ 0 <= user_crud.active_users st <= user_crud.total_users st
  /\ 0 <= user_crud.inactive_users st
  /\ user_crud.active_users st + user_crud.inactive_users st
     = user_crud.total_users st
  /\ (bookings db = [] -> user_crud.users_with_bookings st = 0)
  /\ (NoDup (users db) ->
      user_crud.users_with_bookings st
      = Z.of_nat (List.length (filter (has_booking db) (users db)))).
Proof.
  cbv zeta. unfold user_crud.get_user_stats.
  cbn [user_crud.users_with_bookings user_crud.total_users
       user_crud.active_users user_crud.inactive_users].
  pose proof (filter_length_le (fun u => Bool.eqb (user.is_active u) true)
                (users db)) as Hact.
  assert (Hincl : (List.length (nodup user_crud.User_eq_dec
                                  (user_crud.join_bookings db))
                   <= List.length (users db))%nat).
  { apply NoDup_incl_length; [apply NoDup_nodup|].
    intros u Hu. apply nodup_In, join_bookings_In in Hu. tauto. }
  repeat split; try lia.
  - intros Hnone. unfold user_crud.join_bookings. rewrite Hnone. cbn [filter map].
    replace (flat_map _ (users db)) with (@nil user.User); [reflexivity|].
    symmetry. clear Hact Hincl. induction (users db) as [|u us IH]; [reflexivity|].
    cbn [flat_map app]. exact IH.
  - intros Hnd. f_equal. apply Permutation_length.
    apply NoDup_Permutation; [apply NoDup_nodup | now apply NoDup_filter|].
    intros u. rewrite nodup_In, join_bookings_In, filter_In. reflexivity.
Qed.

Lemma X17_user_stats_bounds_witness :
  NoDup (users db_day)
  /\ user_crud.users_with_bookings (user_crud.get_user_stats db_day) = 1.
Proof.
  assert (Hnd : NoDup (users db_day))
    by (apply NoDup_cons; [intros [] | apply NoDup_nil]).
  split; [exact Hnd|].
  rewrite (proj2 (proj2 (proj2 (proj2 (proj2 (X17_user_stats_bounds db_day))))) Hnd).
  reflexivity.
Defined.

(** ** More on updates and conflicts *)



(** X19.  The checker sees every double booking already in the table:
    if two stored pending or confirmed bookings of one service have
    different ids and overlapping intervals (overlap is symmetric), then
    re-checking either one's own slot, itself excluded, reports it
    unavailable. *)
Theorem X19_overlapping_pair_is_detected
    (db : Session) (A B : Booking) :
  In A (bookings db) -> In B (bookings db) ->
  active A -> active B -> service_id A = service_id B -> id A <> id B ->
  overlaps A (start_time B) (end_time B) ->
  overlaps B (start_time A) (end_time A)
  /\ booking_crud.check_availability db (service_id B) (start_time B) (end_time B)
       (Some (id B)) = false
  /\ booking_crud.check_availability db (service_id A) (start_time A) (end_time A)
       (Some (id A)) = false.
Proof.
  intros HA HB HactA HactB Hsid Hid Hov.
  assert (Hov' : overlaps B (start_time A) (end_time A))
    by (unfold overlaps in *; lia).
  assert (Hseen : forall X Y, In X (bookings db) -> active X ->
            service_id X = service_id Y -> id X <> id Y ->
            overlaps X (start_time Y) (end_time Y) ->
            booking_crud.check_availability db (service_id Y) (start_time Y)
              (end_time Y) (Some (id Y)) = false).
  { intros X Y HX HactX HsidX HidX HovX.
    destruct (booking_crud.check_availability _ _ _ _ _) eqn:Hc; [|reflexivity].
    rewrite check_availability_true in Hc. specialize (Hc X HX).
    unfold counted in Hc. apply andb_false_iff in Hc as [Hc|Hc].
    - apply conflict_filter_false in Hc. tauto.
    - cbn [truthy booking_crud.ne] in Hc.
      destruct (negb (id Y =? 0)); [|discriminate].
      destruct (Z.eqb_spec (id X) (id Y)); [congruence | discriminate]. }
  split; [exact Hov'|]. split.
  - now apply (Hseen A B).
  - apply (Hseen B A); auto.
Qed.

Lemma X19_overlapping_pair_is_detected_witness :
  booking_crud.check_availability
    (db_with [slot 1 1 540 600 "confirmed"; slot 2 1 570 630 "pending"])
    1 570 630 (Some 2) = false.
Proof.
  refine (proj1 (proj2 (X19_overlapping_pair_is_detected
            (db_with [slot 1 1 540 600 "confirmed"; slot 2 1 570 630 "pending"])
            (slot 1 1 540 600 "confirmed") (slot 2 1 570 630 "pending")
            _ _ _ _ _ _ _))).
  - left; reflexivity.
  - right; left; reflexivity.
  - right; reflexivity.
  - left; reflexivity.
  - reflexivity.
  - discriminate.
  - unfold overlaps; simpl; lia.
Defined.

(** X20.  A status update with one of the four valid values succeeds
    from any prior status: the booking comes back with the new status
    and its other columns, it is what its id resolves to afterwards,
    and every other booking is as before. *)
Theorem X20_valid_status_update_overwrites
    (db : Session) (booking_id : Z) (st : string) (b : Booking) :
  In st ["pending"; "confirmed"; "cancelled"; "completed"] ->
  booking_crud.get_booking db booking_id = Some b ->
  exists b' db',
    main.update_booking_status booking_id st db = (Return b', db')
    /\ status b' = st
    /\ id b' = id b /\ user_id b' = user_id b /\ service_id b' = service_id b
    /\ booking_date b' = booking_date b
    /\ start_time b' = start_time b /\ end_time b' = end_time b
    /\ notes b' = notes b /\ total_price b' = total_price b
    /\ booking_crud.get_booking db' booking_id = Some b'
    /\ (forall k, k <> booking_id ->
          booking_crud.get_booking db' k = booking_crud.get_booking db k)
    /\ users db' = users db /\ services db' = services db.
Proof.
  intros Hst Hb.
  assert (Hvalid : str_in st ["pending"; "confirmed"; "cancelled"; "completed"] = true).
  { unfold str_in. apply existsb_exists. exists st.
    split; [assumption | apply String.eqb_refl]. }
  destruct (get_booking_id db booking_id b Hb) as [_ Hid].
  exists (booking_crud.set_status b st),
         (booking_crud.store_row db (booking_crud.set_status b st)).
  unfold main.update_booking_status, booking_crud.update_booking_status.
  pose proof Hb as Hb'. unfold booking_crud.get_booking in Hb'.
  rewrite Hvalid, Hb'. cbn [negb].
  repeat split.
  - rewrite get_booking_store_row, Hb. cbn [booking_crud.set_status id].
    now rewrite Hid, Z.eqb_refl.
  - intros k Hk. rewrite get_booking_store_row.
    destruct (booking_crud.get_booking db k); [|reflexivity].
    cbn [booking_crud.set_status id].
    destruct (Z.eqb_spec k (id b)); [congruence | reflexivity].
Qed.

Lemma X20_valid_status_update_overwrites_witness :
  In "pending" ["pending"; "confirmed"; "cancelled"; "completed"]
  /\ booking_crud.get_booking db_day 2 = Some (slot 2 1 600 660 "cancelled")
  /\ exists b' db',
       main.update_booking_status 2 "pending" db_day = (Return b', db')
       /\ status b' = "pending".
Proof.
  assert (Hin : In "pending" ["pending"; "confirmed"; "cancelled"; "completed"])
    by (left; reflexivity).
  split; [exact Hin|]. split; [reflexivity|].
  destruct (X20_valid_status_update_overwrites db_day 2 "pending"
              (slot 2 1 600 660 "cancelled") Hin eq_refl)
    as (b' & db' & Hupd & Hst & _).
  exists b', db'. split; assumption.
Defined.
